(** * phonenumber: normalisation and classification of phone numbers

    A shallow embedding of [phonenumber.go] and the properties of its
    normaliser, classifier, country resolution, lookup by number and
    pattern cache.

    Go strings are byte strings: they are modelled as [string] (a list of
    8-bit [ascii] characters), [len] counts bytes.  Go's [int] is a 64-bit
    integer, modelled as [Z] with the wrap-around of [+] written out.
    The package-level map [rMap] is threaded through the functions that
    reach it. *)

From Stdlib Require Import ZArith Lia Ascii String List Bool.
From stdpp Require Import base option list strings gmap.

Local Open Scope Z_scope.

(** ** Outcomes

    A Go call either returns, or panics.  [Unmodelled] marks the runs that
    leave the fragment of the [regexp] package described below. *)

Inductive outcome (A : Type) : Type :=
| Ret (a : A)
| Panic
| Unmodelled.

Arguments Ret {A} a.
Arguments Panic {A}.
Arguments Unmodelled {A}.

#[global] Instance outcome_ret : MRet outcome := fun A a => Ret a.
#[global] Instance outcome_bind : MBind outcome := fun A B k c =>
  match c with
  | Ret a => k a
  | Panic => Panic
  | Unmodelled => Unmodelled
  end.

(** ** Package unicode/utf8: the width of the first rune of a string *)

Module utf8.

Definition byte (c : ascii) : N := N_of_ascii c.

Definition RuneSelf : N := 0x80%N.

Definition between (lo hi : N) (c : ascii) : bool :=
  ((lo <=? byte c) && (byte c <=? hi))%N.

(** [first] and [acceptRanges]: for a leading byte of a multi-byte
    sequence, the size of the sequence and the range accepted for its
    second byte.  [None] for ASCII bytes and for bytes that cannot start
    a sequence. *)
Definition first (c : ascii) : option (nat * (N * N)) :=
  let b := byte c in
  if ((0xC2 <=? b) && (b <=? 0xDF))%N then Some (2%nat, (0x80, 0xBF)%N)
  else if (b =? 0xE0)%N then Some (3%nat, (0xA0, 0xBF)%N)
  else if ((0xE1 <=? b) && (b <=? 0xEC))%N then Some (3%nat, (0x80, 0xBF)%N)
  else if (b =? 0xED)%N then Some (3%nat, (0x80, 0x9F)%N)
  else if ((0xEE <=? b) && (b <=? 0xEF))%N then Some (3%nat, (0x80, 0xBF)%N)
  else if (b =? 0xF0)%N then Some (4%nat, (0x90, 0xBF)%N)
  else if ((0xF1 <=? b) && (b <=? 0xF3))%N then Some (4%nat, (0x80, 0xBF)%N)
  else if (b =? 0xF4)%N then Some (4%nat, (0x80, 0x8F)%N)
  else None.

(** The second result of [utf8.DecodeRuneInString]: 0 on the empty
    string, 1 on an ASCII byte and on every invalid encoding (which
    decodes to RuneError), else the size of the encoded rune. *)
Definition DecodeRuneInString_width (s : string) : nat :=
  match s with
  | EmptyString => 0%nat
  | String c0 s0 =>
      match first c0 with
      | None => 1%nat
      | Some (sz, (lo, hi)) =>
          match s0 with
          | String c1 s1 =>
              if negb (between lo hi c1) then 1%nat
              else if (sz <=? 2)%nat then 2%nat
              else match s1 with
                   | String c2 s2 =>
                       if negb (between 0x80 0xBF c2) then 1%nat
                       else if (sz <=? 3)%nat then 3%nat
                       else match s2 with
                            | String c3 _ =>
                                if negb (between 0x80 0xBF c3) then 1%nat
                                else 4%nat
                            | EmptyString => 1%nat
                            end
                   | EmptyString => 1%nat
                   end
          | EmptyString => 1%nat
          end
      end
  end.

End utf8.

(** ** Package strings *)

Module Strings.

(** [len(s)], a Go [int]. *)
Definition len (s : string) : Z := Z.of_nat (String.length s).

(** [s[n:]], for [n <= len(s)]. *)
Fixpoint drop (n : nat) (s : string) : string :=
  match n, s with
  | O, _ => s
  | S n', String _ s' => drop n' s'
  | S _, EmptyString => EmptyString
  end.

(** [s[:n]], for [n <= len(s)]. *)
Fixpoint take (n : nat) (s : string) : string :=
  match n, s with
  | O, _ => EmptyString
  | S n', String c s' => String c (take n' s')
  | S _, EmptyString => EmptyString
  end.

(** [strings.HasPrefix(s, prefix)]:
    [len(s) >= len(prefix) && s[:len(prefix)] == prefix]. *)
Fixpoint HasPrefix (s prefix : string) : bool :=
  match prefix, s with
  | EmptyString, _ => true
  | String p prefix', String c s' =>
      if Ascii.eqb c p then HasPrefix s' prefix' else false
  | String _ _, EmptyString => false
  end.

(** The loop of [strings.Replace] for a non-empty [old]: up to [n]
    non-overlapping occurrences are replaced, leftmost first; [skip]
    counts the bytes of the occurrence just found that are still to be
    passed over. *)
Fixpoint replace_scan (old new : string) (n skip : nat) (s : string) : string :=
  match s with
  | EmptyString => EmptyString
  | String c s' =>
      match skip with
      | S k => replace_scan old new n k s'
      | O =>
          match n with
          | O => s
          | S n' =>
              if HasPrefix s old
              then new +:+ replace_scan old new n' (String.length old - 1) s'
              else String c (replace_scan old new n 0 s')
          end
      end
  end.

(** The loop of [strings.Replace] for the empty [old], which matches
    before every rune and at the end of the string. *)
Fixpoint replace_empty (new : string) (n : nat) (s : string) : string :=
  match n with
  | O => s
  | S n' =>
      new +:+
      match s with
      | EmptyString => EmptyString
      | String _ _ =>
          let wid := utf8.DecodeRuneInString_width s in
          take wid s +:+ replace_empty new n' (drop wid s)
      end
  end.

(** [strings.Replace(s, old, new, n)]; a negative [n] puts no limit on
    the number of replacements. *)
Definition Replace (s old new : string) (n : Z) : string :=
  if String.eqb old new || (n =? 0) then s
  else
    let k := if n <? 0 then S (String.length s) else Z.to_nat n in
    match old with
    | EmptyString => replace_empty new k s
    | String _ _ => replace_scan old new k 0 s
    end.

Definition isASCII (s : string) : bool :=
  forallb (fun c => (utf8.byte c <? utf8.RuneSelf)%N) (list_ascii_of_string s).

Definition upperASCII (c : ascii) : ascii :=
  if (("a" <=? c) && (c <=? "z"))%char
  then ascii_of_N (utf8.byte c - 32) else c.

Fixpoint mapASCII (f : ascii -> ascii) (s : string) : string :=
  match s with
  | EmptyString => EmptyString
  | String c s' => String (f c) (mapASCII f s')
  end.

(** [strings.ToUpper(s)]: byte-wise on an ASCII string, and
    [Map(unicode.ToUpper, s)] otherwise; the Unicode case tables are
    the parameter [unicodeToUpper]. *)
Definition ToUpper (unicodeToUpper : string -> string) (s : string) : string :=
  if isASCII s then mapASCII upperASCII s else unicodeToUpper s.

End Strings.

(** ** Package regexp

    Only the expressions the program compiles are described.  The four
    package-level expressions are fixed; [getRegexpByCountryCode] compiles
    ["^" + countryCode], of which the model covers the expressions made
    of a leading [^] followed by literal characters and [.]. *)

Module Regexp.

(** One element of the sequence after the leading [^]. *)
Inductive inst : Type :=
| Lit (c : ascii)      (* a literal ASCII character *)
| AnyNotNL.            (* [.]: any rune except newline *)

(** A compiled expression [^ i1 i2 ... in]. *)
Record Regexp : Type := { prog : list inst }.

#[global] Instance Regexp_inhabited : Inhabited Regexp := populate {| prog := [] |}.

(** The bytes [regexp.QuoteMeta] escapes. *)
Definition special (c : ascii) : bool :=
  existsb (Ascii.eqb c) (list_ascii_of_string "\.+*?()|[]{}^$").

Definition parse_inst (c : ascii) : outcome inst :=
  if Ascii.eqb c "." then Ret AnyNotNL
  else if special c || negb (utf8.byte c <? utf8.RuneSelf)%N then Unmodelled
  else Ret (Lit c).

Fixpoint parse_seq (s : string) : outcome (list inst) :=
  match s with
  | EmptyString => Ret []
  | String c s' =>
      i ← parse_inst c;
      p ← parse_seq s';
      Ret (i :: p)
  end.

(** [regexp.MustCompile(expr)] *)
Definition MustCompile (expr : string) : outcome Regexp :=
  match expr with
  | String "^" rest => p ← parse_seq rest; Ret {| prog := p |}
  | _ => Unmodelled
  end.

(** The number of bytes the sequence matches at the start of [s]. *)
Fixpoint match_here (p : list inst) (s : string) : option nat :=
  match p with
  | [] => Some 0%nat
  | Lit c :: p' =>
      match s with
      | String c' s' => if Ascii.eqb c' c then S <$> match_here p' s' else None
      | EmptyString => None
      end
  | AnyNotNL :: p' =>
      match s with
      | String c' _ =>
          if Ascii.eqb c' "010" then None
          else
            let wid := utf8.DecodeRuneInString_width s in
            Nat.add wid <$> match_here p' (Strings.drop wid s)
      | EmptyString => None
      end
  end.

(** [re.MatchString(s)]; the expression is anchored at the start of the
    text. *)
Definition MatchString (re : Regexp) (s : string) : bool :=
  bool_decide (is_Some (match_here (prog re) s)).

(** [re.ReplaceAllString(src, repl)] for the empty [repl]: [^] can
    match at offset 0 only, so at most one match is removed. *)
Definition ReplaceAllString (re : Regexp) (src : string) : string :=
  match match_here (prog re) src with
  | Some k => Strings.drop k src
  | None => src
  end.

Definition isDigit (c : ascii) : bool := (("0" <=? c) && (c <=? "9"))%char.

(** [digitsOnlyRegexp.ReplaceAllString(s, repl)] for the empty [repl],
    with [digitsOnlyRegexp = \D]: every rune that is not a decimal digit
    is removed.  The bytes of such a rune are all different from
    ['0'..'9'], and a digit is a rune of its own, so the bytes ['0'..'9']
    are what remains. *)
Fixpoint digitsOnly_ReplaceAllString (s : string) : string :=
  match s with
  | EmptyString => EmptyString
  | String c s' =>
      if isDigit c then String c (digitsOnly_ReplaceAllString s')
      else digitsOnly_ReplaceAllString s'
  end.

(** [^c+] replaced by the empty string: the leading run of [c] is
    removed. *)
Fixpoint trimRun (c : ascii) (s : string) : string :=
  match s with
  | EmptyString => EmptyString
  | String c' s' => if Ascii.eqb c' c then trimRun c s' else s
  end.

(** [leadZeroRegexp.ReplaceAllString(s, repl)] for the empty [repl],
    [leadZeroRegexp = ^0+] *)
Definition leadZero_ReplaceAllString (s : string) : string := trimRun "0" s.

(** [rusLocalePrefixRegexp.ReplaceAllString(s, repl)] for the empty
    [repl], [rusLocalePrefixRegexp = ^8+] *)
Definition rusLocalePrefix_ReplaceAllString (s : string) : string := trimRun "8" s.

(** [rusLocaleMobPrefixRegexp.MatchString(s)],
    [rusLocaleMobPrefixRegexp = ^89] *)
Definition rusLocaleMobPrefix_MatchString (s : string) : bool :=
  Strings.HasPrefix s "89".

End Regexp.

Import Regexp.
Import Strings.

(** ** Go's [int] *)

(** The value of a 64-bit two's-complement integer expression. *)
Definition wrap64 (z : Z) : Z := (z + 2 ^ 63) mod 2 ^ 64 - 2 ^ 63.

(** [a + b] on [int]. *)
Definition int_add (a b : Z) : Z := wrap64 (a + b).

(** ** The country record *)

(** Modelled from the spec: the declaration of the struct [ISO3166] is not
    in [phonenumber.go].  The fields are the ones the source reads, with
    the types it uses them at: the calling code, the three identifiers,
    the ordered list of mobile prefixes and the accepted lengths of the
    national number. *)
Record ISO3166 : Type := {
  Alpha2 : string;
  Alpha3 : string;
  CountryCode : string;
  CountryName : string;
  MobileBeginWith : list string;
  PhoneNumberLengths : list Z
}.

(** [ISO3166{}], the zero value. *)
Definition zeroISO3166 : ISO3166 :=
  {| Alpha2 := EmptyString; Alpha3 := EmptyString; CountryCode := EmptyString;
     CountryName := EmptyString; MobileBeginWith := []; PhoneNumberLengths := [] |}.

(** ** The pattern cache

    [rMap] is a package-level variable: the functions that call
    [getRegexpByCountryCode] take the current map and return the new one.
    [rLock] is held for the whole body of [getRegexpByCountryCode], so the
    body is one atomic step on [rMap]. *)

Definition M (A : Type) : Type :=
  gmap string Regexp -> outcome (A * gmap string Regexp).

#[global] Instance M_ret : MRet M := fun A a rMap => Ret (a, rMap).
#[global] Instance M_bind : MBind M := fun A B k c rMap =>
  match c rMap with
  | Ret (a, rMap') => k a rMap'
  | Panic => Panic
  | Unmodelled => Unmodelled
  end.

(** A computation that does not touch [rMap]. *)
Definition lift {A : Type} (c : outcome A) : M A := fun rMap =>
  match c with
  | Ret a => Ret (a, rMap)
  | Panic => Panic
  | Unmodelled => Unmodelled
  end.

Definition getRegexpByCountryCode (countryCode : string) : M Regexp := fun rMap =>
  match rMap !! countryCode with
  | Some regex => Ret (regex, rMap)
  | None =>
      match MustCompile ("^" +:+ countryCode) with
      | Ret re =>
          let rMap' := <[countryCode := re]> rMap in
          Ret (rMap' !!! countryCode, rMap')
      | Panic => Panic
      | Unmodelled => Unmodelled
      end
  end.

Fixpoint indexOfString_from (k : Z) (word : string) (data : list string) : Z :=
  match data with
  | [] => -1
  | v :: data' =>
      if String.eqb word v then k else indexOfString_from (k + 1) word data'
  end.

Definition indexOfString (word : string) (data : list string) : Z :=
  indexOfString_from 0 word data.

Fixpoint indexOfInt_from (k : Z) (word : Z) (data : list Z) : Z :=
  match data with
  | [] => -1
  | v :: data' =>
      if word =? v then k else indexOfInt_from (k + 1) word data'
  end.

Definition indexOfInt (word : Z) (data : list Z) : Z :=
  indexOfInt_from 0 word data.

(** *** The classifier *)

(** [for _, l := range iso3166.PhoneNumberLengths] of
    [validateLandlineISO3166] *)
Fixpoint landlineLengths (r : Regexp) (number countryCode : string)
    (lengths : list Z) : bool :=
  match lengths with
  | [] => false
  | l :: lengths' =>
      if MatchString r number && (len number =? int_add (len countryCode) l)
      then true
      else landlineLengths r number countryCode lengths'
  end.

Definition validateLandlineISO3166 (number : string) (iso3166 : ISO3166) : M bool :=
  if (Z.of_nat (length (PhoneNumberLengths iso3166)) =? 0) then mret false
  else
    r ← getRegexpByCountryCode (CountryCode iso3166);
    mret (landlineLengths r number (CountryCode iso3166) (PhoneNumberLengths iso3166)).

(** [for _, w := range iso3166.MobileBeginWith] of
    [validateMobileISO3166]: [true] when the loop returns [true] *)
Fixpoint mobilePrefixes (number : string) (prefixes : list string) : M bool :=
  match prefixes with
  | [] => mret false
  | w :: prefixes' =>
      rm ← getRegexpByCountryCode w;
      if MatchString rm number then mret true
      else mobilePrefixes number prefixes'
  end.

(** [for _, l := range iso3166.PhoneNumberLengths] of
    [validateMobileISO3166] *)
Fixpoint mobileLengths (number : string) (prefixes : list string)
    (lengths : list Z) : M bool :=
  match lengths with
  | [] => mret false
  | l :: lengths' =>
      if l =? len number then
        found ← mobilePrefixes number prefixes;
        if found : bool then mret true
        else mobileLengths number prefixes lengths'
      else mobileLengths number prefixes lengths'
  end.

Definition validateMobileISO3166 (number : string) (iso3166 : ISO3166) : M bool :=
  if (Z.of_nat (length (PhoneNumberLengths iso3166)) =? 0) then mret false
  else
    r ← getRegexpByCountryCode (CountryCode iso3166);
    let number := ReplaceAllString r number in
    mobileLengths number (MobileBeginWith iso3166) (PhoneNumberLengths iso3166).

(** Returns [(valid, mobile)]. *)
Definition validatePhoneISO3166 (number : string) (iso3166 : ISO3166)
    : M (bool * bool) :=
  landline ← validateLandlineISO3166 number iso3166;
  if negb landline then mret (false, false)
  else
    mobile ← validateMobileISO3166 number iso3166;
    if mobile : bool then mret (true, true) else mret (true, false).

(** *** Lookup by number *)

(** [for _, w := range i.MobileBeginWith] of [GetISO3166ByNumber]:
    [true] when the loop reaches [return i] *)
Fixpoint mobileCodes (number countryCode : string) (prefixes : list string)
    : M bool :=
  match prefixes with
  | [] => mret false
  | w :: prefixes' =>
      rm ← getRegexpByCountryCode (countryCode +:+ w);
      if MatchString rm number then mret true
      else mobileCodes number countryCode prefixes'
  end.

(** How the loop over [i.PhoneNumberLengths] ends. *)
Inductive exit : Type :=
| ReturnI       (* [return i] *)
| BreakI        (* [iso3166 = i; break] *)
| Fallthrough.  (* the range is exhausted *)

Fixpoint numberLengths (number : string) (withLandLine : bool) (i : ISO3166)
    (r : Regexp) (lengths : list Z) : M exit :=
  match lengths with
  | [] => mret Fallthrough
  | l :: lengths' =>
      if MatchString r number
         && (len number =? int_add (len (CountryCode i)) l)
      then
        found ← mobileCodes number (CountryCode i) (MobileBeginWith i);
        if found : bool then mret ReturnI
        else if withLandLine then mret BreakI
        else numberLengths number withLandLine i r lengths'
      else numberLengths number withLandLine i r lengths'
  end.

(** [for _, i := range GetISO3166()] of [GetISO3166ByNumber], with the
    current value of the local [iso3166]. *)
Fixpoint numberTable (number : string) (withLandLine : bool)
    (iso3166 : ISO3166) (table : list ISO3166) : M ISO3166 :=
  match table with
  | [] => mret iso3166
  | i :: table' =>
      r ← getRegexpByCountryCode (CountryCode i);
      e ← numberLengths number withLandLine i r (PhoneNumberLengths i);
      match e with
      | ReturnI => mret i
      | BreakI => numberTable number withLandLine i table'
      | Fallthrough => numberTable number withLandLine iso3166 table'
      end
  end.

(** [for _, i := range GetISO3166() { if p(i) { iso3166 = i; break } }]
    on [iso3166 := ISO3166{}] *)
Fixpoint firstRecord (p : ISO3166 -> bool) (table : list ISO3166) : ISO3166 :=
  match table with
  | [] => zeroISO3166
  | i :: table' => if p i then i else firstRecord p table'
  end.

Section Core.

(** [GetISO3166()], the table of country records, and the Unicode case
    mapping behind [strings.ToUpper]: neither is in [phonenumber.go]. *)
Variable GetISO3166 : list ISO3166.
Variable unicodeToUpper : string -> string.

Definition GetISO3166ByNumber (number : string) (withLandLine : bool)
    : M ISO3166 :=
  numberTable number withLandLine zeroISO3166 GetISO3166.

Definition getISO3166ByCountry (country : string) : outcome ISO3166 :=
  let uppperCaseCountry := ToUpper unicodeToUpper country in
  match String.length country with
  | 0%nat =>
      match GetISO3166 with
      | i :: _ => Ret i
      | [] => Panic
      end
  | 2%nat =>
      Ret (firstRecord (fun i => String.eqb (Alpha2 i) uppperCaseCountry) GetISO3166)
  | 3%nat =>
      Ret (firstRecord (fun i => String.eqb (Alpha3 i) uppperCaseCountry) GetISO3166)
  | _ =>
      Ret (firstRecord
             (fun i => String.eqb (ToUpper unicodeToUpper (CountryName i))
                                  uppperCaseCountry) GetISO3166)
  end.

Definition parseInternal (number country : string) : outcome (string * ISO3166) :=
  let number := Replace number " " EmptyString (-1) in
  let country := Replace country " " EmptyString (-1) in
  if HasPrefix number "+" && String.eqb country EmptyString
  then Ret (EmptyString, zeroISO3166)
  else
    let number := digitsOnly_ReplaceAllString number in
    iso3166 ← getISO3166ByCountry country;
    let number :=
      if HasPrefix number (CountryCode iso3166) then
        let withoutCountryCode :=
          Replace number (CountryCode iso3166) EmptyString 1 in
        let withoutCountryCode :=
          if HasPrefix withoutCountryCode "0"
          then Replace withoutCountryCode "0" EmptyString 1
          else withoutCountryCode in
        CountryCode iso3166 +:+ withoutCountryCode
      else number in
    let number :=
      if indexOfString (Alpha3 iso3166) ["GAB"; "CIV"; "COG"] =? -1
      then leadZero_ReplaceAllString number
      else number in
    let number :=
      if String.eqb (Alpha3 iso3166) "RUS" && (len number =? 11)
         && rusLocaleMobPrefix_MatchString number
      then rusLocalePrefix_ReplaceAllString number
      else number in
    let number :=
      if negb (indexOfInt (len number) (PhoneNumberLengths iso3166) =? -1)
      then CountryCode iso3166 +:+ number
      else number in
    Ret (number, iso3166).

Definition Parse (number country : string) : M string :=
  '(parsed, iso3166) ← lift (parseInternal number country);
  ok ← validateMobileISO3166 parsed iso3166;
  if ok : bool then mret parsed else mret EmptyString.

Definition ParseWithLandLine (number country : string) : M string :=
  '(parsed, iso3166) ← lift (parseInternal number country);
  ok ← validateLandlineISO3166 parsed iso3166;
  if ok : bool then mret parsed else mret EmptyString.

(** Returns [(parsed, valid, mobile)]. *)
Definition ParseWithFlags (number country : string) : M (string * bool * bool) :=
  '(parsed, iso3166) ← lift (parseInternal number country);
  '(valid, mobile) ← validatePhoneISO3166 parsed iso3166;
  let parsed := if negb valid then EmptyString else parsed in
  mret (parsed, valid, mobile).

End Core.

(** *** Lookup of a national mobile number *)

(** [for _, w := range i.MobileBeginWith] of [GetISO3166ByMobileNumber],
    with the current value of [result]. *)
Fixpoint mobileNumberPrefixes (number : string) (i : ISO3166)
    (prefixes : list string) (result : list ISO3166) : list ISO3166 :=
  match prefixes with
  | [] => result
  | w :: prefixes' =>
      if negb (String.eqb w EmptyString) && HasPrefix number w
      then mobileNumberPrefixes number i prefixes' (result ++ [i])
      else mobileNumberPrefixes number i prefixes' result
  end.

(** [for _, l := range i.PhoneNumberLengths] of
    [GetISO3166ByMobileNumber] *)
Fixpoint mobileNumberLengths (number : string) (i : ISO3166)
    (lengths : list Z) (result : list ISO3166) : list ISO3166 :=
  match lengths with
  | [] => result
  | l :: lengths' =>
      if len number =? l
      then mobileNumberLengths number i lengths'
             (mobileNumberPrefixes number i (MobileBeginWith i) result)
      else mobileNumberLengths number i lengths' result
  end.

(** [for _, i := range GetISO3166()] of [GetISO3166ByMobileNumber] *)
Fixpoint mobileNumberTable (number : string) (table : list ISO3166)
    (result : list ISO3166) : list ISO3166 :=
  match table with
  | [] => result
  | i :: table' =>
      mobileNumberTable number table'
        (mobileNumberLengths number i (PhoneNumberLengths i) result)
  end.

(** [GetISO3166ByMobileNumber(number)] on the table [GetISO3166()]. *)
Definition GetISO3166ByMobileNumber (GetISO3166 : list ISO3166)
    (number : string) : list ISO3166 :=
  mobileNumberTable number GetISO3166 [].

(** ** Vocabulary of the specification *)

(** [s] starts with [p]. *)
Definition StartsWith (s p : string) : Prop := exists t, s = p +:+ t.

(** A digit string, as the data model has it for country codes and mobile
    prefixes. *)
Fixpoint isDigits (s : string) : bool :=
  match s with
  | EmptyString => true
  | String c s' => isDigit c && isDigits s'
  end.

(** A string free of the characters that mean something else than
    themselves in a regular expression. *)
Fixpoint isLiteral (s : string) : bool :=
  match s with
  | EmptyString => true
  | String c s' =>
      negb (special c) && (utf8.byte c <? utf8.RuneSelf)%N && isLiteral s'
  end.

(** The expression [^p] for a literal [p]. *)
Definition litRegexp (p : string) : Regexp :=
  {| prog := Lit <$> list_ascii_of_string p |}.

(** A record of the data model: the country code and the mobile prefixes
    are digit strings. *)
Definition wfISO3166 (i : ISO3166) : bool :=
  isDigits (CountryCode i) && forallb isDigits (MobileBeginWith i).

(** Every entry of the cache is the compiled form of its key. *)
Definition cache_ok (rMap : gmap string Regexp) : Prop :=
  forall k re, rMap !! k = Some re -> MustCompile ("^" +:+ k) = Ret re.

(** [c] returns [a] from every consistent cache, and leaves a consistent
    cache. *)
Definition returns {A : Type} (c : M A) (a : A) : Prop :=
  forall rMap, cache_ok rMap ->
    exists rMap', c rMap = Ret (a, rMap') /\ cache_ok rMap'.

(** The result of [c] in a program that has not yet compiled any
    expression: [rMap] is initially empty. *)
Definition run {A : Type} (c : M A) : outcome A :=
  match c ∅ with
  | Ret (a, _) => Ret a
  | Panic => Panic
  | Unmodelled => Unmodelled
  end.

(** The national part: [s] without the prefix [p] when it has it. *)
Definition stripPrefix (s p : string) : string :=
  if HasPrefix s p then drop (String.length p) s else s.

(** The landline check of the specification. *)
Definition LandlineValid (digits : string) (country : ISO3166) : Prop :=
  PhoneNumberLengths country <> [] /\
  StartsWith digits (CountryCode country) /\
  exists L, In L (PhoneNumberLengths country) /\
            len digits = int_add (len (CountryCode country)) L.

(** The mobile check of the specification. *)
Definition MobileValid (digits : string) (country : ISO3166) : Prop :=
  PhoneNumberLengths country <> [] /\
  let nationalPart := stripPrefix digits (CountryCode country) in
  exists L, In L (PhoneNumberLengths country) /\ L = len nationalPart /\
  exists w, In w (MobileBeginWith country) /\ StartsWith nationalPart w.

(** The mobile check as a boolean: some accepted length is the length of
    the national part, and the national part has one of the mobile
    prefixes. *)
Definition mobileCheck (digits : string) (country : ISO3166) : bool :=
  let nationalPart := stripPrefix digits (CountryCode country) in
  existsb (fun l => l =? len nationalPart) (PhoneNumberLengths country)
  && existsb (HasPrefix nationalPart) (MobileBeginWith country).

(** Lookup by number: the number has the country code of [i] and the
    total length of one of its accepted lengths. *)
Definition lengthMatch (number : string) (i : ISO3166) : bool :=
  HasPrefix number (CountryCode i)
  && existsb (fun l => len number =? int_add (len (CountryCode i)) l)
             (PhoneNumberLengths i).

(** ... and it starts with the country code followed by a mobile prefix. *)
Definition mobileMatch (number : string) (i : ISO3166) : bool :=
  lengthMatch number i
  && existsb (fun w => HasPrefix number (CountryCode i +:+ w))
             (MobileBeginWith i).

(** The result the specification gives for lookup by number: the first
    record with a mobile match; without one, the last landline candidate
    when landlines are included; else the zero value. *)
Definition lookupByNumber (table : list ISO3166) (number : string)
    (includeLandline : bool) : ISO3166 :=
  match find (mobileMatch number) table with
  | Some i => i
  | None =>
      if includeLandline
      then List.last (List.filter (lengthMatch number) table) zeroISO3166
      else zeroISO3166
  end.

(** [r] is the first record of [table] that satisfies [P], or the zero
    value when there is none. *)
Definition FirstMatch (P : ISO3166 -> Prop) (table : list ISO3166)
    (r : ISO3166) : Prop :=
  (exists pre post, table = pre ++ r :: post /\ P r /\
                    forall j, In j pre -> ~ P j)
  \/ ((forall j, In j table -> ~ P j) /\ r = zeroISO3166).

(** Trailing spaces removed. *)
Fixpoint trimRight (s : string) : string :=
  match s with
  | EmptyString => EmptyString
  | String c s' =>
      match trimRight s' with
      | EmptyString => if Ascii.eqb c " " then EmptyString else String c EmptyString
      | t => String c t
      end
  end.

(** Leading and trailing spaces removed: the normalisation the
    specification words for country resolution. *)
Definition trimSpaces (s : string) : string := trimRight (trimRun " " s).

(** Country resolution as the specification words it: trim, then
    dispatch. *)
Definition resolveTrimmed (table : list ISO3166) (unicodeToUpper : string -> string)
    (countryIdentifier : string) : outcome ISO3166 :=
  getISO3166ByCountry table unicodeToUpper (trimSpaces countryIdentifier).

(** The steps of [parseInternal] that follow country resolution, one
    definition per statement of the source. *)

(** The zero after the country code. *)
Definition stripZeroAfterCode (iso3166 : ISO3166) (number : string) : string :=
  if HasPrefix number (CountryCode iso3166) then
    let withoutCountryCode :=
      Replace number (CountryCode iso3166) EmptyString 1 in
    let withoutCountryCode :=
      if HasPrefix withoutCountryCode "0"
      then Replace withoutCountryCode "0" EmptyString 1
      else withoutCountryCode in
    CountryCode iso3166 +:+ withoutCountryCode
  else number.

(** The leading zeros, outside the exception set. *)
Definition stripLeadingZeros (iso3166 : ISO3166) (number : string) : string :=
  if indexOfString (Alpha3 iso3166) ["GAB"; "CIV"; "COG"] =? -1
  then leadZero_ReplaceAllString number
  else number.

(** The Russian trunk prefix. *)
Definition stripRusPrefix (iso3166 : ISO3166) (number : string) : string :=
  if String.eqb (Alpha3 iso3166) "RUS" && (len number =? 11)
     && rusLocaleMobPrefix_MatchString number
  then rusLocalePrefix_ReplaceAllString number
  else number.

(** The country code, in front of a number of an accepted length. *)
Definition attachCode (iso3166 : ISO3166) (number : string) : string :=
  if negb (indexOfInt (len number) (PhoneNumberLengths iso3166) =? -1)
  then CountryCode iso3166 +:+ number
  else number.

(** The leading-zero exception set of [parseInternal]. *)
Definition keepsLeadingZero (i : ISO3166) : bool :=
  negb (indexOfString (Alpha3 i) ["GAB"; "CIV"; "COG"] =? -1).

(** Records on which a parsed mobile number is a fixed point of the
    normaliser: the country code begins neither with 0 nor, for RUS, with
    8; no mobile prefix is empty or begins with 0; no accepted length is
    the length of the country code plus an accepted length. *)
Definition stableRecord (i : ISO3166) : bool :=
  negb (HasPrefix (CountryCode i) "0")
  && (negb (String.eqb (Alpha3 i) "RUS") || negb (HasPrefix (CountryCode i) "8"))
  && forallb (fun w => negb (String.eqb w EmptyString) && negb (HasPrefix w "0"))
             (MobileBeginWith i)
  && forallb (fun L =>
                forallb (fun L' => negb (L =? len (CountryCode i) + L'))
                        (PhoneNumberLengths i))
             (PhoneNumberLengths i).

(** The copies of [i] that lookup of a national mobile number yields:
    one for every accepted length equal to the length of the number and
    every non-empty mobile prefix the number starts with. *)
Definition mobileNumberHits (number : string) (i : ISO3166) : list ISO3166 :=
  flat_map
    (fun l =>
       if len number =? l
       then flat_map
              (fun w =>
                 if negb (String.eqb w EmptyString) && HasPrefix number w
                 then [i] else [])
              (MobileBeginWith i)
       else [])
    (PhoneNumberLengths i).

(** [s] without its spaces. *)
Fixpoint removeSpaces (s : string) : string :=
  match s with
  | EmptyString => EmptyString
  | String c s' =>
      if Ascii.eqb c " " then removeSpaces s' else String c (removeSpaces s')
  end.

(** [s] contains a space. *)
Fixpoint hasSpace (s : string) : bool :=
  match s with
  | EmptyString => false
  | String c s' => Ascii.eqb c " " || hasSpace s'
  end.

(** [c] never removes or replaces an entry of the cache. *)
Definition grows {A : Type} (c : M A) : Prop :=
  forall rMap a rMap', c rMap = Ret (a, rMap') -> rMap ⊆ rMap'.

(** The accepted lengths of [i] are values of Go's [int]. *)
Definition intLengths (i : ISO3166) : bool :=
  forallb (fun l => (- 2 ^ 63 <=? l) && (l <? 2 ^ 63)) (PhoneNumberLengths i).

(** The condition of the Russian rule of [parseInternal]. *)
Definition rusRuleApplies (iso3166 : ISO3166) (number : string) : bool :=
  String.eqb (Alpha3 iso3166) "RUS" && (len number =? 11)
  && rusLocaleMobPrefix_MatchString number.

(** ** A sample table

    Records of the shape [GetISO3166()] returns, used to run the
    functions on concrete inputs. *)

Module Sample.

Definition US : ISO3166 :=
  {| Alpha2 := "US"; Alpha3 := "USA"; CountryCode := "1";
     CountryName := "United States";
     MobileBeginWith := ["201"; "202"; "203"];
     PhoneNumberLengths := [10] |}.

Definition FR : ISO3166 :=
  {| Alpha2 := "FR"; Alpha3 := "FRA"; CountryCode := "33";
     CountryName := "France";
     MobileBeginWith := ["6"; "7"];
     PhoneNumberLengths := [9] |}.

Definition AT : ISO3166 :=
  {| Alpha2 := "AT"; Alpha3 := "AUT"; CountryCode := "43";
     CountryName := "Austria";
     MobileBeginWith := ["6"];
     PhoneNumberLengths := [10; 11; 12; 13; 14] |}.

Definition KZ : ISO3166 :=
  {| Alpha2 := "KZ"; Alpha3 := "KAZ"; CountryCode := "7";
     CountryName := "Kazakhstan";
     MobileBeginWith := ["70"; "74"; "77"];
     PhoneNumberLengths := [10] |}.

Definition RU : ISO3166 :=
  {| Alpha2 := "RU"; Alpha3 := "RUS"; CountryCode := "7";
     CountryName := "Russian Federation";
     MobileBeginWith := ["9"];
     PhoneNumberLengths := [10] |}.

(** A country without distinct mobile prefixes: every number of the
    accepted length is mobile. *)
Definition MC : ISO3166 :=
  {| Alpha2 := "MC"; Alpha3 := "MCO"; CountryCode := "377";
     CountryName := "Monaco";
     MobileBeginWith := [EmptyString];
     PhoneNumberLengths := [8] |}.

Definition table : list ISO3166 := [US; FR; AT; KZ; RU; MC].

(** The case mapping on the non-ASCII strings; the identifiers used
    below are ASCII, where it is not consulted. *)
Definition toUpper (s : string) : string := s.

End Sample.

(** A table with a record of the leading-zero exception set. *)
Module SampleZero.

Definition CI : ISO3166 :=
  {| Alpha2 := "CI"; Alpha3 := "CIV"; CountryCode := "225";
     CountryName := "Ivory Coast";
     MobileBeginWith := ["01"; "05"; "07"];
     PhoneNumberLengths := [10] |}.

Definition table : list ISO3166 := [CI].

End SampleZero.

(** Records the data model allows although no numbering plan has them:
    a country code that begins with 0, and a record of alpha3 RUS whose
    country code begins with 89. *)
Module SampleUnusual.

Definition ZeroCode : ISO3166 :=
  {| Alpha2 := "ZZ"; Alpha3 := "ZZZ"; CountryCode := "09";
     CountryName := "Zero";
     MobileBeginWith := ["5"];
     PhoneNumberLengths := [3] |}.

Definition Rus89 : ISO3166 :=
  {| Alpha2 := "RU"; Alpha3 := "RUS"; CountryCode := "89";
     CountryName := "Rus";
     MobileBeginWith := ["1"];
     PhoneNumberLengths := [9] |}.

Definition table : list ISO3166 := [ZeroCode; Rus89].

End SampleUnusual.

(** ** Go's [int] addition on lengths *)

Section IntFacts.

(** The comparison of a length with [len(countryCode) + l] is the
    comparison with the mathematical sum: a sum that wraps around is
    negative, and a sum that does not fit is larger than any length. *)
Lemma int_add_len (number countryCode : string) (l : Z) :
  len number < 2 ^ 63 -> len countryCode < 2 ^ 63 ->
  - 2 ^ 63 <= l < 2 ^ 63 ->
  (len number = int_add (len countryCode) l <-> len number = len countryCode + l).
Proof.
  intros Hn Hc Hl. unfold int_add, wrap64, len in *.
  destruct (Z_lt_ge_dec (Z.of_nat (String.length countryCode) + l) (2 ^ 63)).
  - rewrite Z.mod_small by lia. lia.
  - replace ((Z.of_nat (String.length countryCode) + l + 2 ^ 63) mod 2 ^ 64)
      with (Z.of_nat (String.length countryCode) + l + 2 ^ 63 - 2 ^ 64).
    + lia.
    + apply Z.mod_unique with (q := 1); lia.
Qed.

End IntFacts.
(** ** Strings *)

Section StringFacts.

Lemma append_nil_l (s : string) : EmptyString +:+ s = s.
Proof. reflexivity. Qed.

Lemma append_cons (c : ascii) (s t : string) :
  String c s +:+ t = String c (s +:+ t).
Proof. reflexivity. Qed.


Lemma length_append (s t : string) :
  String.length (s +:+ t) = (String.length s + String.length t)%nat.
Proof.
  induction s as [|c s IH]; [reflexivity|].
  rewrite append_cons. simpl. by rewrite IH.
Qed.

Lemma len_append (s t : string) : len (s +:+ t) = len s + len t.
Proof. unfold len. rewrite length_append. lia. Qed.

Lemma HasPrefix_append (p t : string) : HasPrefix (p +:+ t) p = true.
Proof.
  induction p as [|c p IH]; [by destruct t|].
  rewrite append_cons. simpl. by rewrite Ascii.eqb_refl.
Qed.

Lemma drop_append (p t : string) : drop (String.length p) (p +:+ t) = t.
Proof. induction p as [|c p IH]; [reflexivity|]. by rewrite append_cons. Qed.

Lemma HasPrefix_split (s p : string) :
  HasPrefix s p = true -> s = p +:+ drop (String.length p) s.
Proof.
  revert s. induction p as [|c p IH]; intros s H; [reflexivity|].
  destruct s as [|c' s]; [discriminate|]. simpl in H.
  destruct (Ascii.eqb c' c) eqn:E; [|discriminate].
  apply Ascii.eqb_eq in E as ->.
  rewrite append_cons. simpl. f_equal. by apply IH.
Qed.

Lemma HasPrefix_StartsWith (s p : string) :
  HasPrefix s p = true <-> StartsWith s p.
Proof.
  split.
  - intros H. eexists. by apply HasPrefix_split.
  - intros [t ->]. apply HasPrefix_append.
Qed.

Lemma HasPrefix_nil (s : string) : HasPrefix s EmptyString = true.
Proof. by destruct s. Qed.

Lemma stripPrefix_app (p t : string) : stripPrefix (p +:+ t) p = t.
Proof. unfold stripPrefix. by rewrite HasPrefix_append, drop_append. Qed.

(** After the last replacement the scan passes over [skip] bytes and
    keeps the rest. *)
Lemma replace_scan_done (old new : string) (skip : nat) (s : string) :
  replace_scan old new 0 skip s = drop skip s.
Proof.
  revert skip. induction s as [|c s IH]; intros [|k]; simpl; auto.
Qed.

(** Removing the first occurrence of a prefix removes the prefix. *)
Lemma replace_scan_here (old new : string) (n : nat) (c : ascii) (s : string) :
  HasPrefix (String c s) old = true ->
  replace_scan old new (S n) 0 (String c s)
  = new +:+ replace_scan old new n (String.length old - 1) s.
Proof. intros H. cbn [replace_scan]. by rewrite H. Qed.

Lemma Replace_prefix (p t : string) :
  Replace (p +:+ t) p EmptyString 1 = t.
Proof.
  unfold Replace. destruct p as [|c p]; [reflexivity|].
  cbn [String.eqb orb Z.eqb Z.ltb Z.compare].
  change (Z.to_nat 1) with 1%nat.
  rewrite append_cons, replace_scan_here by (rewrite <- append_cons; apply HasPrefix_append).
  rewrite append_nil_l, replace_scan_done.
  replace (String.length (String c p) - 1)%nat with (String.length p)
    by (simpl; lia).
  apply drop_append.
Qed.

(** A string without the byte [c] is left alone by the replacement of
    [c]. *)
Lemma replace_scan_absent (c : ascii) (new : string) (n : nat) (s : string) :
  forallb (fun c' => negb (Ascii.eqb c' c)) (list_ascii_of_string s) = true ->
  replace_scan (String c EmptyString) new n 0 s = s.
Proof.
  induction s as [|c' s IH]; [reflexivity|]. simpl.
  intros [Hc Hs]%andb_true_iff. destruct n as [|n]; [reflexivity|].
  apply negb_true_iff in Hc. rewrite Hc. f_equal. by apply IH.
Qed.

End StringFacts.

(** ** Digit strings and literal expressions *)

Section Literals.

Lemma isDigit_literal (c : ascii) :
  isDigit c = true -> negb (special c) && (utf8.byte c <? utf8.RuneSelf)%N = true.
Proof.
  unfold isDigit, Ascii.leb, utf8.byte, utf8.RuneSelf.
  intros [H1 H2]%andb_true_iff.
  apply N.leb_le in H1, H2.
  change (N_of_ascii "0") with 48%N in H1. change (N_of_ascii "9") with 57%N in H2.
  assert (Hc : c = ascii_of_N (N_of_ascii c)) by (by rewrite ascii_N_embedding).
  destruct (N_of_ascii c) as [|p] eqn:E; [lia|].
  rewrite Hc.
  do 6 (destruct p as [p|p|]; try lia); try (destruct p as [p|p|]; try lia);
    reflexivity.
Qed.

Lemma isDigits_isLiteral (s : string) : isDigits s = true -> isLiteral s = true.
Proof.
  induction s as [|c s IH]; [done|]. simpl.
  intros [Hc Hs]%andb_true_iff. by rewrite (isDigit_literal c Hc), IH.
Qed.

Lemma isDigits_app (s t : string) :
  isDigits (s +:+ t) = isDigits s && isDigits t.
Proof.
  induction s as [|c s IH]; [done|].
  rewrite append_cons. simpl. by rewrite IH, andb_assoc.
Qed.

Lemma parse_seq_literal (p : string) :
  isLiteral p = true -> parse_seq p = Ret (Lit <$> list_ascii_of_string p).
Proof.
  induction p as [|c p IH]; [done|]. simpl.
  intros [[Hs Hb]%andb_true_iff Hp]%andb_true_iff.
  rewrite (IH Hp). unfold parse_inst.
  apply negb_true_iff in Hs.
  destruct (Ascii.eqb c ".") eqn:E.
  { apply Ascii.eqb_eq in E as ->. discriminate. }
  by rewrite Hs, Hb.
Qed.

Lemma MustCompile_literal (p : string) :
  isLiteral p = true -> MustCompile ("^" +:+ p) = Ret (litRegexp p).
Proof.
  intros H. change ("^" +:+ p) with (String "^" p).
  unfold MustCompile. by rewrite (parse_seq_literal p H).
Qed.

Lemma match_here_literal (p s : string) :
  match_here (Lit <$> list_ascii_of_string p) s
  = if HasPrefix s p then Some (String.length p) else None.
Proof.
  revert s. induction p as [|c p IH]; intros s; [by destruct s|].
  destruct s as [|c' s]; [done|].
  change (match_here (Lit <$> list_ascii_of_string (String c p)) (String c' s))
    with (if Ascii.eqb c' c
          then S <$> match_here (Lit <$> list_ascii_of_string p) s
          else None).
  cbn [HasPrefix String.length].
  destruct (Ascii.eqb c' c); [|done].
  rewrite IH. by destruct (HasPrefix s p).
Qed.

Lemma MatchString_literal (p s : string) :
  MatchString (litRegexp p) s = HasPrefix s p.
Proof.
  unfold MatchString, litRegexp. simpl. rewrite match_here_literal.
  destruct (HasPrefix s p).
  - apply bool_decide_eq_true. eauto.
  - apply bool_decide_eq_false. by intros [? ?].
Qed.

Lemma ReplaceAllString_literal (p s : string) :
  ReplaceAllString (litRegexp p) s = stripPrefix s p.
Proof.
  unfold ReplaceAllString, litRegexp, stripPrefix. simpl.
  rewrite match_here_literal. by destruct (HasPrefix s p).
Qed.

End Literals.

(** ** The cache *)

Section Cache.

Lemma cache_ok_empty : cache_ok ∅.
Proof. intros k re H. by rewrite lookup_empty in H. Qed.

Lemma returns_ret {A : Type} (a : A) : returns (mret a) a.
Proof. intros rMap H. by exists rMap. Qed.

Lemma returns_bind {A B : Type} (c : M A) (k : A -> M B) (a : A) (b : B) :
  returns c a -> returns (k a) b -> returns (mbind k c) b.
Proof.
  intros Hc Hk rMap H.
  destruct (Hc rMap H) as (rMap1 & E1 & H1).
  destruct (Hk rMap1 H1) as (rMap2 & E2 & H2).
  exists rMap2. split; [|done].
  unfold mbind, M_bind. by rewrite E1.
Qed.

Lemma returns_lift {A : Type} (c : outcome A) (a : A) :
  c = Ret a -> returns (lift c) a.
Proof. intros -> rMap H. by exists rMap. Qed.

(** A computation returns one value only. *)
Lemma returns_inj {A : Type} (c : M A) (a b : A) :
  returns c a -> returns c b -> a = b.
Proof.
  intros Ha Hb.
  destruct (Ha ∅ cache_ok_empty) as (m1 & E1 & _).
  destruct (Hb ∅ cache_ok_empty) as (m2 & E2 & _).
  congruence.
Qed.

Lemma getRegexpByCountryCode_literal (p : string) :
  isLiteral p = true -> returns (getRegexpByCountryCode p) (litRegexp p).
Proof.
  intros Hp rMap H. unfold getRegexpByCountryCode.
  destruct (rMap !! p) as [re|] eqn:E.
  - exists rMap. split; [|done].
    apply H in E. rewrite (MustCompile_literal p Hp) in E. congruence.
  - rewrite (MustCompile_literal p Hp). eexists. split.
    + by rewrite lookup_total_insert_eq.
    + intros k re. rewrite lookup_insert.
      case_decide as Hk; [|by apply H].
      intros [= <-]. subst k. by apply MustCompile_literal.
Qed.

Lemma getRegexpByCountryCode_digits (p : string) :
  isDigits p = true -> returns (getRegexpByCountryCode p) (litRegexp p).
Proof. intros H. by apply getRegexpByCountryCode_literal, isDigits_isLiteral. Qed.

End Cache.

(** ** The classifier *)

Ltac step lem := eapply returns_bind; [apply lem; eauto|]; cbn beta.

Section Classifier.

Lemma landlineLengths_literal (number countryCode : string) (lengths : list Z) :
  landlineLengths (litRegexp countryCode) number countryCode lengths
  = HasPrefix number countryCode
    && existsb (fun l => len number =? int_add (len countryCode) l) lengths.
Proof.
  induction lengths as [|l ls IH]; simpl.
  - by rewrite andb_false_r.
  - rewrite IH, MatchString_literal.
    destruct (HasPrefix number countryCode); simpl; [|done].
    by destruct (len number =? int_add (len countryCode) l).
Qed.

Lemma validateLandlineISO3166_returns (number : string) (iso3166 : ISO3166) :
  wfISO3166 iso3166 = true ->
  returns (validateLandlineISO3166 number iso3166) (lengthMatch number iso3166).
Proof.
  intros [Hcc _]%andb_true_iff. unfold validateLandlineISO3166, lengthMatch.
  destruct (PhoneNumberLengths iso3166) as [|l ls] eqn:E.
  - simpl. rewrite andb_false_r. apply returns_ret.
  - cbn [length Z.of_nat Z.eqb]. 
    step getRegexpByCountryCode_digits.
    rewrite landlineLengths_literal. apply returns_ret.
Qed.

Lemma mobilePrefixes_returns (number : string) (prefixes : list string) :
  forallb isDigits prefixes = true ->
  returns (mobilePrefixes number prefixes) (existsb (HasPrefix number) prefixes).
Proof.
  induction prefixes as [|w ws IH]; simpl.
  - intros _. apply returns_ret.
  - intros [Hw Hws]%andb_true_iff.
    step getRegexpByCountryCode_digits.
    rewrite MatchString_literal.
    destruct (HasPrefix number w); simpl; [apply returns_ret|by apply IH].
Qed.

Lemma mobileLengths_returns (number : string) (prefixes : list string)
    (lengths : list Z) :
  forallb isDigits prefixes = true ->
  returns (mobileLengths number prefixes lengths)
          (existsb (fun l => l =? len number) lengths
           && existsb (HasPrefix number) prefixes).
Proof.
  intros Hws. induction lengths as [|l ls IH]; simpl.
  - apply returns_ret.
  - destruct (l =? len number); simpl; [|done].
    step mobilePrefixes_returns.
    destruct (existsb (HasPrefix number) prefixes); [apply returns_ret|].
    by rewrite andb_false_r in IH.
Qed.

Lemma validateMobileISO3166_returns (number : string) (iso3166 : ISO3166) :
  wfISO3166 iso3166 = true ->
  returns (validateMobileISO3166 number iso3166) (mobileCheck number iso3166).
Proof.
  intros [Hcc Hws]%andb_true_iff. unfold validateMobileISO3166, mobileCheck.
  destruct (PhoneNumberLengths iso3166) as [|l ls] eqn:E.
  - apply returns_ret.
  - cbn [length Z.of_nat Z.eqb].
    step getRegexpByCountryCode_digits.
    rewrite ReplaceAllString_literal.
    by apply mobileLengths_returns.
Qed.

Lemma validatePhoneISO3166_returns (number : string) (iso3166 : ISO3166) :
  wfISO3166 iso3166 = true ->
  returns (validatePhoneISO3166 number iso3166)
          (lengthMatch number iso3166,
           lengthMatch number iso3166 && mobileCheck number iso3166).
Proof.
  intros Hwf. unfold validatePhoneISO3166.
  step validateLandlineISO3166_returns.
  destruct (lengthMatch number iso3166); simpl; [|apply returns_ret].
  step validateMobileISO3166_returns.
  destruct (mobileCheck number iso3166); apply returns_ret.
Qed.

(** The zero value is rejected before the cache is consulted. *)
Lemma validate_zero (number : string) :
  returns (validateLandlineISO3166 number zeroISO3166) false
  /\ returns (validateMobileISO3166 number zeroISO3166) false
  /\ returns (validatePhoneISO3166 number zeroISO3166) (false, false).
Proof.
  repeat split; intros rMap H; exists rMap; by split.
Qed.

Lemma lengthMatch_LandlineValid (number : string) (iso3166 : ISO3166) :
  lengthMatch number iso3166 = true <-> LandlineValid number iso3166.
Proof.
  unfold lengthMatch, LandlineValid.
  rewrite andb_true_iff, HasPrefix_StartsWith, existsb_exists.
  split.
  - intros (Hp & L & HL & E). repeat split; [|done|].
    + intros E'. by rewrite E' in HL.
    + exists L. split; [done|]. by apply Z.eqb_eq.
  - intros (_ & Hp & L & HL & E). split; [done|].
    exists L. split; [done|]. by apply Z.eqb_eq.
Qed.

(** On the lengths a Go program can hold, the landline check compares
    with the mathematical sum. *)
Lemma LandlineValid_sum (number : string) (iso3166 : ISO3166) :
  len number < 2 ^ 63 -> len (CountryCode iso3166) < 2 ^ 63 ->
  Forall (fun l => - 2 ^ 63 <= l < 2 ^ 63) (PhoneNumberLengths iso3166) ->
  (LandlineValid number iso3166 <->
   PhoneNumberLengths iso3166 <> []
   /\ StartsWith number (CountryCode iso3166)
   /\ exists L, In L (PhoneNumberLengths iso3166)
                /\ len number = len (CountryCode iso3166) + L).
Proof.
  intros Hn Hc Hl. rewrite Forall_forall in Hl. unfold LandlineValid.
  split; intros (Hne & Hp & L & HL & E); (split; [done|]); (split; [done|]);
    exists L; (split; [done|]);
    apply (int_add_len number (CountryCode iso3166) L Hn Hc); auto.
    all: apply Hl; by apply list_elem_of_In.
Qed.

Lemma mobileCheck_MobileValid (number : string) (iso3166 : ISO3166) :
  mobileCheck number iso3166 = true <-> MobileValid number iso3166.
Proof.
  unfold mobileCheck, MobileValid. cbn zeta.
  rewrite andb_true_iff, !existsb_exists.
  split.
  - intros ((L & HL & E) & w & Hw & Hp). split.
    + intros E'. by rewrite E' in HL.
    + exists L. repeat split; [done|by apply Z.eqb_eq|].
      exists w. split; [done|]. by apply HasPrefix_StartsWith.
  - intros (_ & L & HL & E & w & Hw & Hp). split.
    + exists L. split; [done|]. by apply Z.eqb_eq.
    + exists w. split; [done|]. by apply HasPrefix_StartsWith.
Qed.

End Classifier.

(** ** Lookup by number *)

Section Lookup.

Lemma List_last_cons {A : Type} (a d : A) (l : list A) :
  List.last (a :: l) d = List.last l a.
Proof.
  revert a d. induction l as [|b l IH]; intros a d; [done|].
  change (List.last (a :: b :: l) d) with (List.last (b :: l) d).
  by rewrite !IH.
Qed.


Lemma find_all_false {A : Type} (p : A -> bool) (l : list A) :
  (forall j, In j l -> p j = false) -> find p l = None.
Proof.
  intros H. induction l as [|a l IH]; [done|]. simpl.
  rewrite (H a) by (by left). apply IH. intros j Hj. apply H. by right.
Qed.

Lemma mobileCodes_returns (number countryCode : string) (prefixes : list string) :
  isDigits countryCode = true -> forallb isDigits prefixes = true ->
  returns (mobileCodes number countryCode prefixes)
          (existsb (fun w => HasPrefix number (countryCode +:+ w)) prefixes).
Proof.
  intros Hcc. induction prefixes as [|w ws IH]; simpl.
  - intros _. apply returns_ret.
  - intros [Hw Hws]%andb_true_iff.
    eapply returns_bind.
    { apply getRegexpByCountryCode_digits. by rewrite isDigits_app, Hcc, Hw. }
    cbn beta. rewrite MatchString_literal.
    destruct (HasPrefix number (countryCode +:+ w)); simpl;
      [apply returns_ret|by apply IH].
Qed.

(** The way the loop over the accepted lengths of [i] ends. *)
Lemma numberLengths_returns (number : string) (withLandLine : bool)
    (i : ISO3166) (lengths : list Z) :
  wfISO3166 i = true ->
  returns (numberLengths number withLandLine i (litRegexp (CountryCode i)) lengths)
          (if HasPrefix number (CountryCode i)
              && existsb (fun l => len number =? int_add (len (CountryCode i)) l)
                         lengths
           then if existsb (fun w => HasPrefix number (CountryCode i +:+ w))
                           (MobileBeginWith i)
                then ReturnI
                else if withLandLine then BreakI else Fallthrough
           else Fallthrough).
Proof.
  intros [Hcc Hws]%andb_true_iff.
  induction lengths as [|l ls IH]; simpl.
  - rewrite andb_false_r. apply returns_ret.
  - rewrite MatchString_literal.
    destruct (HasPrefix number (CountryCode i)); simpl; [|done].
    simpl in IH.
    destruct (len number =? int_add (len (CountryCode i)) l); simpl; [|done].
    step mobileCodes_returns.
    destruct (existsb _ (MobileBeginWith i)); [apply returns_ret|].
    destruct withLandLine; [apply returns_ret|].
    by destruct (existsb _ ls).
Qed.

Lemma numberTable_returns (number : string) (withLandLine : bool)
    (table : list ISO3166) :
  forallb wfISO3166 table = true ->
  forall iso3166,
    returns (numberTable number withLandLine iso3166 table)
            (match find (mobileMatch number) table with
             | Some i => i
             | None =>
                 if withLandLine
                 then List.last (List.filter (lengthMatch number) table) iso3166
                 else iso3166
             end).
Proof.
  induction table as [|i table IH]; intros Hwf iso3166.
  - simpl. destruct withLandLine; apply returns_ret.
  - simpl in Hwf. apply andb_true_iff in Hwf as [Hi Htable].
    specialize (IH Htable).
    cbn [numberTable find List.filter].
    pose proof Hi as [Hcc _]%andb_true_iff.
    step getRegexpByCountryCode_digits.
    step numberLengths_returns.
    unfold mobileMatch at 1. unfold lengthMatch at 1 2.
    destruct (HasPrefix number (CountryCode i)
              && existsb (fun l => len number =? int_add (len (CountryCode i)) l)
                   (PhoneNumberLengths i)); cbn [andb]; cbv match; [|apply IH].
    destruct (existsb _ (MobileBeginWith i)); [apply returns_ret|].
    destruct withLandLine; [|apply IH].
    rewrite List_last_cons. apply IH.
Qed.

End Lookup.

(** ** Country resolution and the normaliser *)

Section Resolution.

Variable GetISO3166 : list ISO3166.
Variable unicodeToUpper : string -> string.

Lemma firstRecord_FirstMatch (p : ISO3166 -> bool) (P : ISO3166 -> Prop)
    (table : list ISO3166) :
  (forall i, p i = true <-> P i) ->
  FirstMatch P table (firstRecord p table).
Proof.
  intros Hp. induction table as [|i table IH]; simpl.
  - right. split; [|done]. by intros j [].
  - destruct (p i) eqn:E.
    + left. exists [], table. split; [reflexivity|]. split; [by apply Hp|].
      by intros j [].
    + assert (Hi : ~ P i) by (rewrite <- Hp; congruence).
      destruct IH as [(pre & post & Ht & Hr & Hpre)|[Hnone ->]].
      * left. exists (i :: pre), post. split; [by rewrite Ht at 1|].
        split; [done|].
        intros j [<-|Hj]; [done|by apply Hpre].
      * right. split; [|done]. intros j [<-|Hj]; [done|by apply Hnone].
Qed.

Lemma firstRecord_cases (p : ISO3166 -> bool) (table : list ISO3166) :
  firstRecord p table = zeroISO3166 \/ In (firstRecord p table) table.
Proof.
  induction table as [|i table IH]; simpl; [by left|].
  destruct (p i); [right; by left|]. destruct IH; [by left|right; by right].
Qed.

Lemma getISO3166ByCountry_cases (country : string) :
  GetISO3166 <> [] ->
  exists r, getISO3166ByCountry GetISO3166 unicodeToUpper country = Ret r
            /\ (r = zeroISO3166 \/ In r GetISO3166).
Proof.
  intros Hne. unfold getISO3166ByCountry.
  destruct (String.length country) as [|[|[|[|n]]]];
    try (eexists; split; [reflexivity|apply firstRecord_cases]).
  destruct GetISO3166 as [|i rest]; [done|].
  exists i. split; [done|]. right. by left.
Qed.

Lemma wfISO3166_resolved (r : ISO3166) :
  forallb wfISO3166 GetISO3166 = true ->
  r = zeroISO3166 \/ In r GetISO3166 -> wfISO3166 r = true.
Proof.
  intros Hwf [->|Hr]; [done|].
  rewrite forallb_forall in Hwf. by apply Hwf.
Qed.

Lemma parseInternal_cases (number country : string) :
  GetISO3166 <> [] ->
  exists parsed r,
    parseInternal GetISO3166 unicodeToUpper number country = Ret (parsed, r)
    /\ (r = zeroISO3166 \/ In r GetISO3166).
Proof.
  intros Hne. unfold parseInternal.
  destruct (HasPrefix _ "+" && _).
  { eexists _, _. split; [reflexivity|by left]. }
  destruct (getISO3166ByCountry_cases
              (Replace country " " EmptyString (-1)) Hne) as (r & -> & Hr).
  eexists _, r. split; [reflexivity|done].
Qed.

End Resolution.

(** ** The steps of the normaliser *)

Section Normaliser.

Variable GetISO3166 : list ISO3166.
Variable unicodeToUpper : string -> string.

Lemma parseInternal_steps (number country : string) :
  parseInternal GetISO3166 unicodeToUpper number country
  = let number := Replace number " " EmptyString (-1) in
    let country := Replace country " " EmptyString (-1) in
    if HasPrefix number "+" && String.eqb country EmptyString
    then Ret (EmptyString, zeroISO3166)
    else
      iso3166 ← getISO3166ByCountry GetISO3166 unicodeToUpper country;
      Ret (attachCode iso3166
             (stripRusPrefix iso3166
                (stripLeadingZeros iso3166
                   (stripZeroAfterCode iso3166
                      (digitsOnly_ReplaceAllString number)))),
           iso3166).
Proof. reflexivity. Qed.

Lemma isDigits_no_space (s : string) :
  isDigits s = true ->
  forallb (fun c' => negb (Ascii.eqb c' " ")) (list_ascii_of_string s) = true.
Proof.
  induction s as [|c s IH]; [done|]. simpl.
  intros [Hc Hs]%andb_true_iff. rewrite (IH Hs), andb_true_r.
  destruct (Ascii.eqb c " ") eqn:E; [|done].
  apply Ascii.eqb_eq in E as ->. discriminate.
Qed.

Lemma Replace_spaces_digits (s : string) :
  isDigits s = true -> Replace s " " EmptyString (-1) = s.
Proof.
  intros H. unfold Replace. cbn [String.eqb orb Z.eqb Z.ltb Z.compare].
  by apply replace_scan_absent, isDigits_no_space.
Qed.

Lemma digitsOnly_isDigits (s : string) :
  isDigits (digitsOnly_ReplaceAllString s) = true.
Proof.
  induction s as [|c s IH]; [done|]. simpl.
  destruct (isDigit c) eqn:E; [|done]. simpl. by rewrite E.
Qed.

Lemma digitsOnly_digits (s : string) :
  isDigits s = true -> digitsOnly_ReplaceAllString s = s.
Proof.
  induction s as [|c s IH]; [done|]. simpl.
  intros [Hc Hs]%andb_true_iff. by rewrite Hc, IH.
Qed.

Lemma isDigits_no_plus (s : string) :
  isDigits s = true -> HasPrefix s "+" = false.
Proof.
  destruct s as [|c s]; [done|]. simpl. intros [Hc _]%andb_true_iff.
  destruct (Ascii.eqb c "+") eqn:E; [|done].
  apply Ascii.eqb_eq in E as ->. discriminate.
Qed.

Lemma isDigits_trimRun (c : ascii) (s : string) :
  isDigits s = true -> isDigits (trimRun c s) = true.
Proof.
  induction s as [|c' s IH]; [done|]. simpl.
  intros [Hc Hs]%andb_true_iff.
  destruct (Ascii.eqb c' c); [by apply IH|]. simpl. by rewrite Hc, Hs.
Qed.

Lemma HasPrefix_app_app (p t q : string) :
  HasPrefix (p +:+ t) (p +:+ q) = HasPrefix t q.
Proof.
  induction p as [|c p IH]; [done|].
  rewrite !append_cons. simpl. by rewrite Ascii.eqb_refl.
Qed.

Lemma HasPrefix_one (c c' : ascii) (s : string) :
  HasPrefix (String c s) (String c' EmptyString) = Ascii.eqb c c'.
Proof. simpl. rewrite HasPrefix_nil. by destruct (Ascii.eqb c c'). Qed.

(** The first step leaves [cc ++ t] alone when [t] does not begin with
    a zero. *)
Lemma stripZeroAfterCode_app (r : ISO3166) (t : string) :
  HasPrefix t "0" = false ->
  stripZeroAfterCode r (CountryCode r +:+ t) = CountryCode r +:+ t.
Proof.
  intros H. unfold stripZeroAfterCode.
  by rewrite HasPrefix_append, Replace_prefix, H.
Qed.

Lemma stripZeroAfterCode_isDigits (r : ISO3166) (s : string) :
  isDigits (CountryCode r) = true -> isDigits s = true ->
  isDigits (stripZeroAfterCode r s) = true.
Proof.
  intros Hcc Hs. unfold stripZeroAfterCode.
  destruct (HasPrefix s (CountryCode r)) eqn:E; [|done].
  apply HasPrefix_split in E.
  set (t := drop (String.length (CountryCode r)) s) in *.
  rewrite E, Replace_prefix. rewrite E, isDigits_app in Hs.
  apply andb_true_iff in Hs as [_ Ht].
  rewrite isDigits_app, Hcc. simpl.
  destruct (HasPrefix t "0") eqn:E0; [|done].
  apply HasPrefix_split in E0. rewrite E0, Replace_prefix.
  rewrite E0, isDigits_app in Ht. by apply andb_true_iff in Ht as [_ ?].
Qed.

Lemma stripLeadingZeros_isDigits (r : ISO3166) (s : string) :
  isDigits s = true -> isDigits (stripLeadingZeros r s) = true.
Proof.
  intros Hs. unfold stripLeadingZeros.
  destruct (indexOfString _ _ =? -1); [by apply isDigits_trimRun|done].
Qed.

Lemma stripRusPrefix_isDigits (r : ISO3166) (s : string) :
  isDigits s = true -> isDigits (stripRusPrefix r s) = true.
Proof.
  intros Hs. unfold stripRusPrefix.
  destruct (String.eqb _ _ && _ && _); [by apply isDigits_trimRun|done].
Qed.

Lemma attachCode_isDigits (r : ISO3166) (s : string) :
  isDigits (CountryCode r) = true -> isDigits s = true ->
  isDigits (attachCode r s) = true.
Proof.
  intros Hcc Hs. unfold attachCode.
  destruct (negb _); [|done]. by rewrite isDigits_app, Hcc, Hs.
Qed.

Lemma indexOfInt_from_none (k word : Z) (data : list Z) :
  0 <= k -> (indexOfInt_from k word data = -1 <-> ~ In word data).
Proof.
  revert k. induction data as [|v data IH]; intros k Hk; simpl; [tauto|].
  destruct (word =? v) eqn:E.
  - apply Z.eqb_eq in E as ->. split; [lia|]. intros H. contradict H. by left.
  - apply Z.eqb_neq in E. rewrite IH by lia.
    split; [intros H [?|?]; [congruence|done]|intros H ?; apply H; by right].
Qed.

Lemma attachCode_cases (r : ISO3166) (s : string) :
  (In (len s) (PhoneNumberLengths r) /\ attachCode r s = CountryCode r +:+ s)
  \/ (~ In (len s) (PhoneNumberLengths r) /\ attachCode r s = s).
Proof.
  unfold attachCode, indexOfInt.
  destruct (indexOfInt_from 0 (len s) (PhoneNumberLengths r) =? -1) eqn:E.
  - apply Z.eqb_eq in E. right. split; [|done].
    by apply (indexOfInt_from_none 0).
  - apply Z.eqb_neq in E. left. split; [|done].
    destruct (In_dec Z.eq_dec (len s) (PhoneNumberLengths r)) as [|Hn]; [done|].
    by apply (indexOfInt_from_none 0) in Hn.
Qed.

End Normaliser.

(** ** Fixed points of the normaliser *)

Section Stable.

Lemma trimRun_id (c : ascii) (s : string) :
  HasPrefix s (String c EmptyString) = false -> trimRun c s = s.
Proof.
  destruct s as [|c' s]; [done|]. rewrite HasPrefix_one. simpl. by intros ->.
Qed.

Lemma HasPrefix_app_first (p t : string) (c : ascii) :
  p <> EmptyString -> HasPrefix p (String c EmptyString) = false ->
  HasPrefix (p +:+ t) (String c EmptyString) = false.
Proof.
  destruct p as [|c' p]; [done|]. intros _.
  by rewrite append_cons, !HasPrefix_one.
Qed.

Lemma HasPrefix_first_false (s w : string) (c : ascii) :
  HasPrefix s w = true -> w <> EmptyString ->
  HasPrefix w (String c EmptyString) = false ->
  HasPrefix s (String c EmptyString) = false.
Proof.
  intros Hs Hw Hc. apply HasPrefix_split in Hs. rewrite Hs.
  by apply HasPrefix_app_first.
Qed.

Lemma HasPrefix_longer (s : string) (c c' : ascii) :
  HasPrefix s (String c EmptyString) = false ->
  HasPrefix s (String c (String c' EmptyString)) = false.
Proof.
  destruct s as [|a s]; [done|]. rewrite HasPrefix_one. simpl. by intros ->.
Qed.

(** A number that passes the mobile check after [attachCode] is the
    country code followed by a national part of an accepted length
    that has a mobile prefix. *)
Lemma mobileCheck_attachCode (r : ISO3166) (x : string) :
  mobileCheck (attachCode r x) r = true ->
  exists national w,
    attachCode r x = CountryCode r +:+ national
    /\ In (len national) (PhoneNumberLengths r)
    /\ In w (MobileBeginWith r) /\ HasPrefix national w = true.
Proof.
  unfold mobileCheck. cbn zeta.
  intros [(l & Hl & El)%existsb_exists (w & Hw & Ew)%existsb_exists]%andb_true_iff.
  apply Z.eqb_eq in El. subst l.
  destruct (attachCode_cases r x) as [[Hin E]|[Hin E]]; rewrite E in *.
  - rewrite stripPrefix_app in *. by exists x, w.
  - unfold stripPrefix in *.
    destruct (HasPrefix x (CountryCode r)) eqn:Ep; [|done].
    exists (drop (String.length (CountryCode r)) x), w.
    split; [by apply HasPrefix_split|done].
Qed.

Lemma stableRecord_fixed (r : ISO3166) (national w : string) :
  stableRecord r = true ->
  In (len national) (PhoneNumberLengths r) ->
  In w (MobileBeginWith r) -> HasPrefix national w = true ->
  let d := CountryCode r +:+ national in
  attachCode r (stripRusPrefix r (stripLeadingZeros r (stripZeroAfterCode r d))) = d.
Proof.
  intros Hst Hl Hw Hp d. unfold stableRecord in Hst.
  apply andb_true_iff in Hst as [[[Hz H8]%andb_true_iff Hws]%andb_true_iff Hls].
  apply negb_true_iff in Hz.
  rewrite forallb_forall in Hws. apply Hws in Hw.
  apply andb_true_iff in Hw as [Hwe Hw0].
  apply negb_true_iff in Hwe, Hw0. apply String.eqb_neq in Hwe.
  rewrite forallb_forall in Hls. pose proof (Hls _ Hl) as Hll.
  rewrite forallb_forall in Hll.
  assert (Hcc : CountryCode r <> EmptyString).
  { intros E. specialize (Hll _ Hl). rewrite E in Hll.
    apply negb_true_iff, Z.eqb_neq in Hll. apply Hll. reflexivity. }
  assert (Hn0 : HasPrefix national "0" = false)
    by (by apply (HasPrefix_first_false national w)).
  subst d. rewrite stripZeroAfterCode_app by done.
  assert (E6 : stripLeadingZeros r (CountryCode r +:+ national)
               = CountryCode r +:+ national).
  { unfold stripLeadingZeros. destruct (_ =? -1); [|done].
    apply trimRun_id. by apply HasPrefix_app_first. }
  rewrite E6.
  assert (E7 : stripRusPrefix r (CountryCode r +:+ national)
               = CountryCode r +:+ national).
  { unfold stripRusPrefix.
    destruct (String.eqb (Alpha3 r) "RUS"); [|done]. simpl in H8.
    apply negb_true_iff in H8.
    unfold rusLocaleMobPrefix_MatchString.
    rewrite (HasPrefix_longer _ "8" "9") by (by apply HasPrefix_app_first).
    by rewrite andb_false_r. }
  rewrite E7.
  destruct (attachCode_cases r (CountryCode r +:+ national)) as [[Hin _]|[_ E]];
    [|done].
  exfalso. rewrite len_append in Hin.
  specialize (Hls _ Hin). rewrite forallb_forall in Hls. specialize (Hls _ Hl).
  apply negb_true_iff, Z.eqb_neq in Hls. by apply Hls.
Qed.

(** The four steps leave a number alone when its national part does not
    begin with 0, the number itself does not begin with 0 (outside the
    exception set), the Russian rule does not apply and its length is not
    an accepted length. *)
Lemma normaliser_fixed (r : ISO3166) (d : string) :
  HasPrefix (stripPrefix d (CountryCode r)) "0" = false ->
  keepsLeadingZero r || negb (HasPrefix d "0") = true ->
  rusRuleApplies r d = false ->
  existsb (Z.eqb (len d)) (PhoneNumberLengths r) = false ->
  attachCode r (stripRusPrefix r (stripLeadingZeros r (stripZeroAfterCode r d))) = d.
Proof.
  intros Hnat Hzero Hrus Hlen.
  assert (E5 : stripZeroAfterCode r d = d).
  { unfold stripZeroAfterCode, stripPrefix in *.
    destruct (HasPrefix d (CountryCode r)) eqn:Ep; [|done].
    apply HasPrefix_split in Ep.
    set (t := drop (String.length (CountryCode r)) d) in *. clearbody t.
    rewrite Ep. by rewrite Replace_prefix, Hnat. }
  assert (E6 : stripLeadingZeros r d = d).
  { unfold stripLeadingZeros, keepsLeadingZero in *.
    destruct (indexOfString (Alpha3 r) ["GAB"; "CIV"; "COG"] =? -1); [|done].
    simpl in Hzero. apply negb_true_iff in Hzero. by apply trimRun_id. }
  assert (E7 : stripRusPrefix r d = d).
  { unfold stripRusPrefix. fold (rusRuleApplies r d). by rewrite Hrus. }
  rewrite E5, E6, E7.
  destruct (attachCode_cases r d) as [[Hin _]|[_ E]]; [|done].
  exfalso. assert (H : existsb (Z.eqb (len d)) (PhoneNumberLengths r) = true).
  { apply existsb_exists. exists (len d). split; [done|apply Z.eqb_refl]. }
  congruence.
Qed.

End Stable.

(** ** Properties of the classifier *)

(** C1. For a digit string and a country record, [validatePhoneISO3166]
    returns [valid = true] exactly when the landline check passes (the
    accepted lengths are not empty, the digits begin with the country
    code, and their length is the length of the country code plus an
    accepted length); [mobile = true] exactly when [valid = true] and the
    mobile check passes; when the landline check fails the result is
    [(false, false)]. *)
Theorem validatePhoneISO3166_classification (digits : string) (country : ISO3166) :
  wfISO3166 country = true ->
  exists valid mobile mobileOk,
    returns (validatePhoneISO3166 digits country) (valid, mobile)
    /\ returns (validateMobileISO3166 digits country) mobileOk
    /\ (valid = true <-> LandlineValid digits country)
    /\ (mobile = true <-> valid = true /\ mobileOk = true)
    /\ (~ LandlineValid digits country -> (valid, mobile) = (false, false)).
Proof.
  intros Hwf.
  exists (lengthMatch digits country),
         (lengthMatch digits country && mobileCheck digits country),
         (mobileCheck digits country).
  split; [by apply validatePhoneISO3166_returns|].
  split; [by apply validateMobileISO3166_returns|].
  split; [apply lengthMatch_LandlineValid|].
  split; [apply andb_true_iff|].
  rewrite <- lengthMatch_LandlineValid.
  by destruct (lengthMatch digits country).
Qed.

Lemma validatePhoneISO3166_classification_witness :
  wfISO3166 Sample.FR = true
  /\ exists valid mobile mobileOk,
    returns (validatePhoneISO3166 "33612345678" Sample.FR) (valid, mobile)
    /\ returns (validateMobileISO3166 "33612345678" Sample.FR) mobileOk
    /\ (valid = true <-> LandlineValid "33612345678" Sample.FR)
    /\ (mobile = true <-> valid = true /\ mobileOk = true)
    /\ (~ LandlineValid "33612345678" Sample.FR -> (valid, mobile) = (false, false)).
Proof.
  split; [reflexivity|].
  apply (validatePhoneISO3166_classification "33612345678" Sample.FR).
  reflexivity.
Defined.

(** C3. For a digit string and a country record, [validateMobileISO3166]
    returns [true] exactly when the accepted lengths are not empty and,
    for the national part left after the country code is stripped from
    the digits, some accepted length is the length of the national part
    and the national part starts with one of the mobile prefixes; with
    the empty prefix among them every national part of an accepted
    length is mobile. *)
Theorem validateMobileISO3166_mobile (digits : string) (country : ISO3166) :
  wfISO3166 country = true ->
  exists mobile,
    returns (validateMobileISO3166 digits country) mobile
    /\ (mobile = true <-> MobileValid digits country)
    /\ (In EmptyString (MobileBeginWith country) ->
        (mobile = true <->
         In (len (stripPrefix digits (CountryCode country)))
            (PhoneNumberLengths country))).
Proof.
  intros Hwf. exists (mobileCheck digits country).
  split; [by apply validateMobileISO3166_returns|].
  split; [apply mobileCheck_MobileValid|].
  intros Hempty. unfold mobileCheck. cbn zeta.
  rewrite andb_true_iff, !existsb_exists. split.
  - intros [(l & Hl & E%Z.eqb_eq) _]. by subst l.
  - intros Hl. split.
    + eexists. split; [exact Hl|]. apply Z.eqb_refl.
    + exists EmptyString. split; [done|]. apply HasPrefix_nil.
Qed.

Lemma validateMobileISO3166_mobile_witness :
  wfISO3166 Sample.MC = true
  /\ exists mobile,
    returns (validateMobileISO3166 "37712345678" Sample.MC) mobile
    /\ (mobile = true <-> MobileValid "37712345678" Sample.MC)
    /\ (In EmptyString (MobileBeginWith Sample.MC) ->
        (mobile = true <->
         In (len (stripPrefix "37712345678" (CountryCode Sample.MC)))
            (PhoneNumberLengths Sample.MC))).
Proof.
  split; [reflexivity|].
  apply (validateMobileISO3166_mobile "37712345678" Sample.MC).
  reflexivity.
Defined.

(** ** Properties of the pattern cache *)

(** C9, as amended. For every prefix [p] made of ASCII characters that
    are not regular-expression metacharacters (every digit string is
    one), the matcher that [getRegexpByCountryCode p] returns matches a
    string exactly when the string starts with [p]. *)
Theorem getRegexpByCountryCode_matches (p : string) :
  isLiteral p = true ->
  exists re,
    returns (getRegexpByCountryCode p) re
    /\ forall s, MatchString re s = true <-> StartsWith s p.
Proof.
  intros Hp. exists (litRegexp p).
  split; [by apply getRegexpByCountryCode_literal|].
  intros s. rewrite MatchString_literal. apply HasPrefix_StartsWith.
Qed.

Lemma getRegexpByCountryCode_matches_witness :
  isLiteral "33" = true
  /\ exists re,
    returns (getRegexpByCountryCode "33") re
    /\ forall s, MatchString re s = true <-> StartsWith s "33".
Proof.
  split; [reflexivity|].
  apply (getRegexpByCountryCode_matches "33"). reflexivity.
Defined.

(** C9 as stated fails: the prefix is compiled as a regular expression,
    and for the prefix ["."] the matcher accepts ["5"], which does not
    start with ["."]. *)
Lemma getRegexpByCountryCode_dot :
  exists re,
    run (getRegexpByCountryCode ".") = Ret re
    /\ MatchString re "5" = true
    /\ ~ StartsWith "5" ".".
Proof.
  exists {| prog := [AnyNotNL] |}.
  split; [reflexivity|]. split; [reflexivity|].
  intros [t Ht]. discriminate Ht.
Qed.

(** ** Properties of lookup by number *)

(** C6. [GetISO3166ByNumber] scans the table in order and returns the
    first record for which the number has the country code, an accepted
    total length and the country code followed by a mobile prefix; when
    no record is such a mobile match it returns, with [withLandLine],
    the last record for which the number has the country code and an
    accepted total length, and the zero value when there is none;
    without [withLandLine] it returns the zero value. *)
Theorem GetISO3166ByNumber_lookup (table : list ISO3166) (number : string)
    (withLandLine : bool) :
  forallb wfISO3166 table = true ->
  returns (GetISO3166ByNumber table number withLandLine)
          (lookupByNumber table number withLandLine)
  /\ ((forall i, In i table -> mobileMatch number i = false) ->
      returns (GetISO3166ByNumber table number false) zeroISO3166).
Proof.
  intros Hwf. split.
  - by apply numberTable_returns.
  - intros Hnone.
    pose proof (numberTable_returns number false table Hwf zeroISO3166) as H.
    by rewrite (find_all_false _ _ Hnone) in H.
Qed.

Lemma GetISO3166ByNumber_lookup_witness :
  forallb wfISO3166 Sample.table = true
  /\ returns (GetISO3166ByNumber Sample.table "71123456789" true) Sample.RU
  /\ ((forall i, In i Sample.table -> mobileMatch "71123456789" i = false) ->
      returns (GetISO3166ByNumber Sample.table "71123456789" false) zeroISO3166).
Proof.
  split; [reflexivity|].
  apply (GetISO3166ByNumber_lookup Sample.table "71123456789" true).
  reflexivity.
Defined.



(** ** Properties of country resolution *)

(** C4, as amended. [getISO3166ByCountry] upper-cases its argument for
    the comparison and does not trim it (its caller has removed every
    space).  It dispatches on the length in bytes: an empty identifier
    gives the first record of the table; length 2 the first record whose
    alpha2 is the upper-cased identifier; length 3 the first record whose
    alpha3 is; any other length the first record whose upper-cased name
    is; and the zero value when no record matches.  The zero value has an
    empty country code and no accepted length, and the three validators
    reject every number for it. *)
Theorem getISO3166ByCountry_dispatch (table : list ISO3166)
    (unicodeToUpper : string -> string) (country : string) :
  table <> [] ->
  let upper := ToUpper unicodeToUpper in
  exists r,
    getISO3166ByCountry table unicodeToUpper country = Ret r
    /\ (String.length country = 0%nat -> exists rest, table = r :: rest)
    /\ (String.length country = 2%nat ->
        FirstMatch (fun i => Alpha2 i = upper country) table r)
    /\ (String.length country = 3%nat ->
        FirstMatch (fun i => Alpha3 i = upper country) table r)
    /\ (String.length country <> 0%nat -> String.length country <> 2%nat ->
        String.length country <> 3%nat ->
        FirstMatch (fun i => upper (CountryName i) = upper country) table r)
    /\ CountryCode zeroISO3166 = EmptyString
    /\ PhoneNumberLengths zeroISO3166 = []
    /\ forall number,
        returns (validateLandlineISO3166 number zeroISO3166) false
        /\ returns (validateMobileISO3166 number zeroISO3166) false
        /\ returns (validatePhoneISO3166 number zeroISO3166) (false, false).
Proof.
  intros Hne upper. unfold getISO3166ByCountry. fold upper.
  assert (Hzero : CountryCode zeroISO3166 = EmptyString
            /\ PhoneNumberLengths zeroISO3166 = []
            /\ forall number,
                returns (validateLandlineISO3166 number zeroISO3166) false
                /\ returns (validateMobileISO3166 number zeroISO3166) false
                /\ returns (validatePhoneISO3166 number zeroISO3166) (false, false)).
  { split; [done|]. split; [done|]. apply validate_zero. }
  destruct (String.length country) as [|[|[|[|n]]]].
  - destruct table as [|i rest]; [done|].
    exists i. split; [done|]. split; [by exists rest|].
    repeat (split; [intros; lia|]). exact Hzero.
  - eexists. split; [reflexivity|].
    do 3 (split; [intros; lia|]).
    split; [|exact Hzero]. intros _ _ _.
    apply firstRecord_FirstMatch. intros i. apply String.eqb_eq.
  - eexists. split; [reflexivity|]. split; [intros; lia|].
    split; [|repeat (split; [intros; lia|]); exact Hzero].
    intros _. apply firstRecord_FirstMatch. intros i. apply String.eqb_eq.
  - eexists. split; [reflexivity|]. do 2 (split; [intros; lia|]).
    split; [|repeat (split; [intros; lia|]); exact Hzero].
    intros _. apply firstRecord_FirstMatch. intros i. apply String.eqb_eq.
  - eexists. split; [reflexivity|].
    do 3 (split; [intros; lia|]).
    split; [|exact Hzero]. intros _ _ _.
    apply firstRecord_FirstMatch. intros i. apply String.eqb_eq.
Qed.

Lemma getISO3166ByCountry_dispatch_witness :
  Sample.table <> []
  /\ exists r,
      getISO3166ByCountry Sample.table Sample.toUpper "fr" = Ret r
      /\ FirstMatch (fun i => Alpha2 i = "FR") Sample.table r.
Proof.
  split; [discriminate|].
  destruct (getISO3166ByCountry_dispatch Sample.table Sample.toUpper "fr")
    as (r & E & _ & H2 & _); [discriminate|].
  exists r. split; [exact E|]. apply H2. reflexivity.
Defined.

(** C4 as stated fails on the trimming: the identifier [" US"] has three
    bytes and is compared with the alpha3 codes, whereas the trimmed
    identifier resolves to the record of alpha2 [US]. *)
Lemma getISO3166ByCountry_untrimmed :
  getISO3166ByCountry Sample.table Sample.toUpper " US" = Ret zeroISO3166
  /\ resolveTrimmed Sample.table Sample.toUpper " US" = Ret Sample.US
  /\ getISO3166ByCountry Sample.table Sample.toUpper " US"
     <> resolveTrimmed Sample.table Sample.toUpper " US".
Proof. split; [reflexivity|]. split; [reflexivity|discriminate]. Qed.

(** ** Properties of the normaliser *)

(** C5. When the number, after the removal of its spaces, begins with
    [+] and the country identifier, after the removal of its spaces, is
    empty, [parseInternal] returns the empty string and the zero-value
    record; [Parse] and [ParseWithLandLine] return the empty string and
    [ParseWithFlags] the empty string with both flags false.  So does
    [parse("+")] with the empty country. *)
Theorem parseInternal_plus_without_country (table : list ISO3166)
    (unicodeToUpper : string -> string) (number country : string) :
  HasPrefix (Replace number " " EmptyString (-1)) "+" = true ->
  Replace country " " EmptyString (-1) = EmptyString ->
  parseInternal table unicodeToUpper number country = Ret (EmptyString, zeroISO3166)
  /\ returns (Parse table unicodeToUpper number country) EmptyString
  /\ returns (ParseWithLandLine table unicodeToUpper number country) EmptyString
  /\ returns (ParseWithFlags table unicodeToUpper number country)
             (EmptyString, false, false)
  /\ returns (Parse table unicodeToUpper "+" EmptyString) EmptyString.
Proof.
  intros Hplus Hcountry.
  assert (E : parseInternal table unicodeToUpper number country
              = Ret (EmptyString, zeroISO3166)).
  { rewrite parseInternal_steps. cbn zeta. by rewrite Hplus, Hcountry. }
  split; [exact E|].
  unfold Parse, ParseWithLandLine, ParseWithFlags. rewrite E.
  repeat split; intros rMap H; exists rMap; by split.
Qed.

Lemma parseInternal_plus_without_country_witness :
  HasPrefix (Replace "+ 33 6 12 34 56 78" " " EmptyString (-1)) "+" = true
  /\ Replace "  " " " EmptyString (-1) = EmptyString
  /\ parseInternal Sample.table Sample.toUpper "+ 33 6 12 34 56 78" "  "
     = Ret (EmptyString, zeroISO3166)
  /\ returns (Parse Sample.table Sample.toUpper "+ 33 6 12 34 56 78" "  ")
             EmptyString
  /\ returns (ParseWithLandLine Sample.table Sample.toUpper
                "+ 33 6 12 34 56 78" "  ") EmptyString
  /\ returns (ParseWithFlags Sample.table Sample.toUpper
                "+ 33 6 12 34 56 78" "  ") (EmptyString, false, false)
  /\ returns (Parse Sample.table Sample.toUpper "+" EmptyString) EmptyString.
Proof.
  split; [reflexivity|]. split; [reflexivity|].
  apply (parseInternal_plus_without_country Sample.table Sample.toUpper
           "+ 33 6 12 34 56 78" "  "); reflexivity.
Defined.

(** C2. [ParseWithFlags] returns, for every number and country
    identifier, and its [normalized] result is the empty string whenever
    [valid] is false. *)
Theorem ParseWithFlags_invalid_is_empty (table : list ISO3166)
    (unicodeToUpper : string -> string) (number country : string) :
  table <> [] ->
  forallb wfISO3166 table = true ->
  exists normalized valid mobile,
    returns (ParseWithFlags table unicodeToUpper number country)
            (normalized, valid, mobile)
    /\ (valid = false -> normalized = EmptyString).
Proof.
  intros Hne Hwf.
  destruct (parseInternal_cases table unicodeToUpper number country Hne)
    as (parsed & r & E & Hr).
  pose proof (wfISO3166_resolved table r Hwf Hr) as Hwfr.
  exists (if negb (lengthMatch parsed r) then EmptyString else parsed),
         (lengthMatch parsed r),
         (lengthMatch parsed r && mobileCheck parsed r).
  split; [|by intros ->].
  unfold ParseWithFlags.
  eapply returns_bind; [by apply returns_lift|]. cbn beta iota.
  eapply returns_bind; [by apply validatePhoneISO3166_returns|]. cbn beta iota.
  apply returns_ret.
Qed.

Lemma ParseWithFlags_invalid_is_empty_witness :
  Sample.table <> []
  /\ forallb wfISO3166 Sample.table = true
  /\ exists normalized valid mobile,
    returns (ParseWithFlags Sample.table Sample.toUpper "12345" "FR")
            (normalized, valid, mobile)
    /\ (valid = false -> normalized = EmptyString).
Proof.
  split; [discriminate|]. split; [reflexivity|].
  apply (ParseWithFlags_invalid_is_empty Sample.table Sample.toUpper "12345" "FR");
    [discriminate|reflexivity].
Defined.

(** C7, as amended. When [Parse n c] returns a non-empty digit string
    [d], normalising [d] with the same country gives [d] again, provided
    that the national part of [d] (what follows the country code) does
    not begin with 0, that [d] itself does not begin with 0 unless the
    alpha3 of the record is GAB, CIV or COG, that the Russian rule does
    not apply to [d] (alpha3 RUS, eleven digits, beginning with 89), and
    that the length of [d] is not itself an accepted length. *)
Theorem Parse_idempotent (table : list ISO3166) (unicodeToUpper : string -> string)
    (n c d : string) (r : ISO3166) (rMap rMap' : gmap string Regexp) :
  Parse table unicodeToUpper n c rMap = Ret (d, rMap') ->
  d <> EmptyString ->
  getISO3166ByCountry table unicodeToUpper (Replace c " " EmptyString (-1)) = Ret r ->
  wfISO3166 r = true ->
  HasPrefix (stripPrefix d (CountryCode r)) "0" = false ->
  keepsLeadingZero r || negb (HasPrefix d "0") = true ->
  rusRuleApplies r d = false ->
  existsb (Z.eqb (len d)) (PhoneNumberLengths r) = false ->
  parseInternal table unicodeToUpper d c = Ret (d, r).
Proof.
  intros HP Hd Hr Hwf Hnat Hzero Hrus Hlen.
  pose proof Hwf as [Hcc _]%andb_true_iff.
  assert (Hdd : isDigits d = true).
  { unfold Parse in HP. rewrite parseInternal_steps in HP. cbn zeta in HP.
    destruct (HasPrefix (Replace n " " EmptyString (-1)) "+"
              && String.eqb (Replace c " " EmptyString (-1)) EmptyString).
    { injection HP as <- _. done. }
    rewrite Hr in HP. cbn [mbind outcome_bind] in HP.
    unfold mbind, M_bind, lift in HP.
    match type of HP with
    | match validateMobileISO3166 ?p r rMap with _ => _ end = _ =>
        assert (Hp : isDigits p = true)
          by (apply attachCode_isDigits, stripRusPrefix_isDigits,
                stripLeadingZeros_isDigits, stripZeroAfterCode_isDigits;
              [done|done|apply digitsOnly_isDigits]);
        destruct (validateMobileISO3166 p r rMap) as [[[|] rMap1]| |];
          [| |done..]
    end.
    - by injection HP as <- _.
    - injection HP as <- _. done. }
  rewrite parseInternal_steps. cbn zeta.
  rewrite (Replace_spaces_digits _ Hdd), (isDigits_no_plus _ Hdd).
  cbn [andb]. rewrite Hr. cbn [mbind outcome_bind].
  rewrite (digitsOnly_digits _ Hdd).
  by rewrite (normaliser_fixed r d Hnat Hzero Hrus Hlen).
Qed.

Lemma Parse_idempotent_witness :
  exists rMap',
    Parse Sample.table Sample.toUpper "0664 123 456 7890" "at" ∅
    = Ret ("436641234567890", rMap')
    /\ "436641234567890" <> EmptyString
    /\ getISO3166ByCountry Sample.table Sample.toUpper
         (Replace "at" " " EmptyString (-1)) = Ret Sample.AT
    /\ wfISO3166 Sample.AT = true
    /\ HasPrefix (stripPrefix "436641234567890" (CountryCode Sample.AT)) "0" = false
    /\ keepsLeadingZero Sample.AT || negb (HasPrefix "436641234567890" "0") = true
    /\ rusRuleApplies Sample.AT "436641234567890" = false
    /\ existsb (Z.eqb (len "436641234567890")) (PhoneNumberLengths Sample.AT) = false
    /\ parseInternal Sample.table Sample.toUpper "436641234567890" "at"
       = Ret ("436641234567890", Sample.AT).
Proof.
  eexists.
  split; [vm_compute; reflexivity|].
  split; [discriminate|]. do 6 (split; [reflexivity|]).
  eapply (Parse_idempotent Sample.table Sample.toUpper "0664 123 456 7890" "at"
            "436641234567890" Sample.AT ∅);
    [vm_compute; reflexivity|discriminate|reflexivity..].
Defined.

(** C7 as stated fails: Austria accepts the lengths 10 and 12, so the
    parsed number [436641234567], of length 12, gets the country code
    once more when it is normalised again. *)
Lemma Parse_not_idempotent :
  run (Parse Sample.table Sample.toUpper "6641234567" "AT") = Ret "436641234567"
  /\ parseInternal Sample.table Sample.toUpper "436641234567" "AT"
     = Ret ("43436641234567", Sample.AT)
  /\ parseInternal Sample.table Sample.toUpper "436641234567" "AT"
     <> Ret ("436641234567", Sample.AT).
Proof. split; [vm_compute; reflexivity|]. split; [reflexivity|discriminate]. Qed.

(** The other three conditions of the amended C7 are forced as well.
    A national part that begins with 0: for Ivory Coast the parsed
    number [2250712345678] loses the zero after the country code when it
    is normalised again. *)
Lemma Parse_not_idempotent_national_zero :
  run (Parse SampleZero.table Sample.toUpper "0712345678" "CI")
  = Ret "2250712345678"
  /\ keepsLeadingZero SampleZero.CI || negb (HasPrefix "2250712345678" "0") = true
  /\ rusRuleApplies SampleZero.CI "2250712345678" = false
  /\ existsb (Z.eqb (len "2250712345678")) (PhoneNumberLengths SampleZero.CI)
     = false
  /\ parseInternal SampleZero.table Sample.toUpper "2250712345678" "CI"
     = Ret ("225712345678", SampleZero.CI).
Proof. split; [vm_compute; reflexivity|]. by repeat split. Qed.

(** A number that begins with 0: with the country code 09 the parsed
    number [09512] loses its leading zero. *)
Lemma Parse_not_idempotent_leading_zero :
  run (Parse SampleUnusual.table Sample.toUpper "512" "ZZ") = Ret "09512"
  /\ HasPrefix (stripPrefix "09512" (CountryCode SampleUnusual.ZeroCode)) "0"
     = false
  /\ rusRuleApplies SampleUnusual.ZeroCode "09512" = false
  /\ existsb (Z.eqb (len "09512")) (PhoneNumberLengths SampleUnusual.ZeroCode)
     = false
  /\ parseInternal SampleUnusual.table Sample.toUpper "09512" "ZZ"
     = Ret ("9512", SampleUnusual.ZeroCode).
Proof. split; [vm_compute; reflexivity|]. by repeat split. Qed.

(** The Russian rule: with alpha3 RUS and the country code 89 the parsed
    number [89123456789] has eleven digits and begins with 89, and loses
    its leading 8. *)
Lemma Parse_not_idempotent_rus :
  run (Parse SampleUnusual.table Sample.toUpper "123456789" "RU")
  = Ret "89123456789"
  /\ HasPrefix (stripPrefix "89123456789" (CountryCode SampleUnusual.Rus89)) "0"
     = false
  /\ keepsLeadingZero SampleUnusual.Rus89
     || negb (HasPrefix "89123456789" "0") = true
  /\ existsb (Z.eqb (len "89123456789")) (PhoneNumberLengths SampleUnusual.Rus89)
     = false
  /\ parseInternal SampleUnusual.table Sample.toUpper "89123456789" "RU"
     = Ret ("9123456789", SampleUnusual.Rus89).
Proof. split; [vm_compute; reflexivity|]. by repeat split. Qed.

(** C8, as amended. For a country identifier that resolves to a record
    outside the leading-zero exception set whose country code does not
    begin with 0, and a digit string [n] that does not begin with the
    country code followed by 0, the input with a trunk zero in front is
    parsed as the input without it. *)
Theorem Parse_trunk_zero (table : list ISO3166) (unicodeToUpper : string -> string)
    (n c : string) (r : ISO3166) :
  isDigits n = true ->
  getISO3166ByCountry table unicodeToUpper (Replace c " " EmptyString (-1)) = Ret r ->
  keepsLeadingZero r = false ->
  HasPrefix (CountryCode r) "0" = false ->
  HasPrefix n (CountryCode r +:+ "0") = false ->
  parseInternal table unicodeToUpper ("0" +:+ n) c
  = parseInternal table unicodeToUpper n c
  /\ Parse table unicodeToUpper ("0" +:+ n) c = Parse table unicodeToUpper n c
  /\ ParseWithLandLine table unicodeToUpper ("0" +:+ n) c
     = ParseWithLandLine table unicodeToUpper n c
  /\ ParseWithFlags table unicodeToUpper ("0" +:+ n) c
     = ParseWithFlags table unicodeToUpper n c.
Proof.
  intros Hn Hr Hkeep Hcc0 Hn0.
  assert (Hzn : isDigits ("0" +:+ n) = true) by (by rewrite isDigits_app, Hn).
  assert (E : parseInternal table unicodeToUpper ("0" +:+ n) c
              = parseInternal table unicodeToUpper n c).
  { rewrite !parseInternal_steps. cbn zeta.
    rewrite (Replace_spaces_digits _ Hzn), (Replace_spaces_digits _ Hn).
    rewrite (isDigits_no_plus _ Hzn), (isDigits_no_plus _ Hn). cbn [andb].
    rewrite Hr. cbn [mbind outcome_bind].
    rewrite (digitsOnly_digits _ Hzn), (digitsOnly_digits _ Hn).
    assert (E5 : stripZeroAfterCode r n = n).
    { unfold stripZeroAfterCode.
      destruct (HasPrefix n (CountryCode r)) eqn:Ep; [|done].
      apply HasPrefix_split in Ep.
      set (t := drop (String.length (CountryCode r)) n) in *.
      rewrite Ep in Hn0 |- *. rewrite Replace_prefix.
      rewrite HasPrefix_app_app in Hn0. by rewrite Hn0. }
    assert (E6 : stripLeadingZeros r (stripZeroAfterCode r ("0" +:+ n))
                 = stripLeadingZeros r n).
    { unfold stripLeadingZeros, keepsLeadingZero in *.
      apply negb_false_iff in Hkeep. rewrite Hkeep.
      unfold stripZeroAfterCode.
      destruct (CountryCode r) as [|a cc] eqn:Ecc.
      - rewrite HasPrefix_nil.
        change (Replace ("0" +:+ n) EmptyString EmptyString 1) with ("0" +:+ n).
        rewrite HasPrefix_append, Replace_prefix. reflexivity.
      - rewrite HasPrefix_one in Hcc0.
        change (HasPrefix ("0" +:+ n) (String a cc))
          with (if Ascii.eqb "0" a then HasPrefix n cc else false).
        rewrite Ascii.eqb_sym, Hcc0. reflexivity. }
    by rewrite E5, E6. }
  split; [exact E|].
  unfold Parse, ParseWithLandLine, ParseWithFlags. by rewrite E.
Qed.

Lemma Parse_trunk_zero_witness :
  isDigits "612345678" = true
  /\ getISO3166ByCountry Sample.table Sample.toUpper
       (Replace "FR" " " EmptyString (-1)) = Ret Sample.FR
  /\ keepsLeadingZero Sample.FR = false
  /\ HasPrefix (CountryCode Sample.FR) "0" = false
  /\ HasPrefix "612345678" (CountryCode Sample.FR +:+ "0") = false
  /\ parseInternal Sample.table Sample.toUpper ("0" +:+ "612345678") "FR"
     = parseInternal Sample.table Sample.toUpper "612345678" "FR"
  /\ Parse Sample.table Sample.toUpper ("0" +:+ "612345678") "FR"
     = Parse Sample.table Sample.toUpper "612345678" "FR"
  /\ ParseWithLandLine Sample.table Sample.toUpper ("0" +:+ "612345678") "FR"
     = ParseWithLandLine Sample.table Sample.toUpper "612345678" "FR"
  /\ ParseWithFlags Sample.table Sample.toUpper ("0" +:+ "612345678") "FR"
     = ParseWithFlags Sample.table Sample.toUpper "612345678" "FR".
Proof.
  do 5 (split; [reflexivity|]).
  apply (Parse_trunk_zero Sample.table Sample.toUpper "612345678" "FR" Sample.FR);
    reflexivity.
Defined.

(** C8 as stated fails: the Kazakh national number [7012345678] has an
    accepted length and begins with the country code 7 followed by 0;
    without a trunk zero the 7 is read as the country code and the 0 as
    the trunk prefix, and the number is rejected, while with a trunk zero
    it is parsed. *)
Lemma Parse_trunk_zero_mismatch :
  getISO3166ByCountry Sample.table Sample.toUpper "KZ" = Ret Sample.KZ
  /\ keepsLeadingZero Sample.KZ = false
  /\ isDigits "7012345678" = true
  /\ In (len "7012345678") (PhoneNumberLengths Sample.KZ)
  /\ run (Parse Sample.table Sample.toUpper ("0" +:+ "7012345678") "KZ")
     = Ret "77012345678"
  /\ run (Parse Sample.table Sample.toUpper "7012345678" "KZ") = Ret EmptyString
  /\ run (Parse Sample.table Sample.toUpper ("0" +:+ "7012345678") "KZ")
     <> run (Parse Sample.table Sample.toUpper "7012345678" "KZ").
Proof.
  do 3 (split; [reflexivity|]). split; [by left|].
  split; [vm_compute; reflexivity|]. split; [vm_compute; reflexivity|].
  vm_compute. discriminate.
Qed.

(** ** Lookup of a national mobile number *)

Section MobileNumber.

Lemma mobileNumberPrefixes_app (number : string) (i : ISO3166)
    (prefixes : list string) (result : list ISO3166) :
  mobileNumberPrefixes number i prefixes result
  = result ++ flat_map
                (fun w =>
                   if negb (String.eqb w EmptyString) && HasPrefix number w
                   then [i] else [])
                prefixes.
Proof.
  revert result. induction prefixes as [|w ws IH]; intros result; simpl.
  - by rewrite List.app_nil_r.
  - destruct (negb (String.eqb w EmptyString) && HasPrefix number w); rewrite IH.
    + by rewrite <- List.app_assoc.
    + done.
Qed.

Lemma mobileNumberLengths_app (number : string) (i : ISO3166)
    (lengths : list Z) (result : list ISO3166) :
  mobileNumberLengths number i lengths result
  = result ++ flat_map
                (fun l =>
                   if len number =? l
                   then flat_map
                          (fun w =>
                             if negb (String.eqb w EmptyString) && HasPrefix number w
                             then [i] else [])
                          (MobileBeginWith i)
                   else [])
                lengths.
Proof.
  revert result. induction lengths as [|l ls IH]; intros result; simpl.
  - by rewrite List.app_nil_r.
  - destruct (len number =? l); rewrite IH.
    + by rewrite mobileNumberPrefixes_app, <- List.app_assoc.
    + done.
Qed.

Lemma mobileNumberTable_app (number : string) (table result : list ISO3166) :
  mobileNumberTable number table result
  = result ++ flat_map (mobileNumberHits number) table.
Proof.
  revert result. induction table as [|i table IH]; intros result; simpl.
  - by rewrite List.app_nil_r.
  - by rewrite IH, mobileNumberLengths_app, <- List.app_assoc.
Qed.

Lemma In_mobileNumberHits (number : string) (i j : ISO3166) :
  In j (mobileNumberHits number i) <->
  j = i /\ In (len number) (PhoneNumberLengths i)
  /\ exists w, In w (MobileBeginWith i) /\ w <> EmptyString
               /\ HasPrefix number w = true.
Proof.
  unfold mobileNumberHits. rewrite in_flat_map. split.
  - intros (l & Hl & Hj). destruct (len number =? l) eqn:E; [|done].
    apply Z.eqb_eq in E. subst l.
    apply in_flat_map in Hj as (w & Hw & Hj).
    destruct (negb (String.eqb w EmptyString) && HasPrefix number w) eqn:Ew;
      [|done].
    apply andb_true_iff in Ew as [Hne Hp].
    apply negb_true_iff, String.eqb_neq in Hne.
    destruct Hj as [<-|[]]. eauto 10.
  - intros (-> & Hl & w & Hw & Hne & Hp).
    exists (len number). split; [done|]. rewrite Z.eqb_refl.
    apply in_flat_map. exists w. split; [done|].
    apply String.eqb_neq in Hne. rewrite Hne, Hp. by left.
Qed.

End MobileNumber.

(** X1. [GetISO3166ByMobileNumber] returns, in the order of the table,
    one copy of a record for every accepted length equal to the length of
    the number and every non-empty mobile prefix the number starts with:
    a record is listed once per matching prefix (and per repetition of
    the length), and records without a match are left out. *)
Theorem GetISO3166ByMobileNumber_hits (table : list ISO3166) (number : string) :
  GetISO3166ByMobileNumber table number
  = flat_map (mobileNumberHits number) table.
Proof. unfold GetISO3166ByMobileNumber. by rewrite mobileNumberTable_app. Qed.

(** X2. A record is in the result of [GetISO3166ByMobileNumber] exactly
    when it is in the table, the length of the number (without country
    code) is one of its accepted lengths, and the number starts with one
    of its non-empty mobile prefixes.  A record whose only mobile prefix
    is the empty string is never returned, and the empty number matches
    no record. *)
Theorem GetISO3166ByMobileNumber_In (table : list ISO3166) (number : string)
    (i : ISO3166) :
  (In i (GetISO3166ByMobileNumber table number) <->
   In i table /\ In (len number) (PhoneNumberLengths i)
   /\ exists w, In w (MobileBeginWith i) /\ w <> EmptyString
                /\ StartsWith number w)
  /\ GetISO3166ByMobileNumber table EmptyString = [].
Proof.
  split.
  - unfold GetISO3166ByMobileNumber. rewrite mobileNumberTable_app. simpl.
    rewrite in_flat_map. split.
    + intros (j & Hj & Hi). apply In_mobileNumberHits in Hi as (-> & Hl & w & Hw & Hne & Hp).
      split; [done|]. split; [done|]. exists w.
      by rewrite <- HasPrefix_StartsWith.
    + intros (Hi & Hl & w & Hw & Hne & Hp). exists i. split; [done|].
      apply In_mobileNumberHits. split; [done|]. split; [done|].
      exists w. by rewrite HasPrefix_StartsWith.
  - destruct (GetISO3166ByMobileNumber table EmptyString) as [|j l] eqn:E; [done|].
    assert (Hj : In j (GetISO3166ByMobileNumber table EmptyString))
      by (rewrite E; by left).
    unfold GetISO3166ByMobileNumber in Hj. rewrite mobileNumberTable_app in Hj.
    simpl in Hj. apply in_flat_map in Hj as (k & _ & Hk).
    apply In_mobileNumberHits in Hk as (_ & _ & w & _ & Hne & Hp).
    destruct w; [done|discriminate].
Qed.

(** ** The cache only grows *)

Section Grows.

Lemma grows_ret {A : Type} (a : A) : grows (mret a).
Proof. intros rMap a' rMap' [= _ <-]. done. Qed.

Lemma grows_lift {A : Type} (c : outcome A) : grows (lift c).
Proof. intros rMap a rMap'. unfold lift. destruct c; [|done..]. by intros [= _ <-]. Qed.

Lemma grows_bind {A B : Type} (c : M A) (k : A -> M B) :
  grows c -> (forall a, grows (k a)) -> grows (mbind k c).
Proof.
  intros Hc Hk rMap b rMap'. unfold mbind, M_bind.
  destruct (c rMap) as [[a rMap1]| |] eqn:E; [|done..].
  intros E'. etrans; [by eapply Hc|by eapply Hk].
Qed.

Lemma getRegexpByCountryCode_step (p : string) (rMap rMap' : gmap string Regexp)
    (re : Regexp) :
  getRegexpByCountryCode p rMap = Ret (re, rMap') ->
  (rMap !! p = Some re /\ rMap' = rMap)
  \/ (rMap !! p = None /\ MustCompile ("^" +:+ p) = Ret re
      /\ rMap' = <[p := re]> rMap).
Proof.
  unfold getRegexpByCountryCode.
  destruct (rMap !! p) as [re0|] eqn:E.
  - intros [= <- <-]. by left.
  - destruct (MustCompile ("^" +:+ p)) as [re0| |]; [|done..].
    rewrite lookup_total_insert_eq. intros [= <- <-]. by right.
Qed.

Lemma getRegexpByCountryCode_grows (p : string) : grows (getRegexpByCountryCode p).
Proof.
  intros rMap re rMap' H.
  apply getRegexpByCountryCode_step in H as [[_ ->]|(E & _ & ->)]; [done|].
  by apply insert_subseteq.
Qed.

Lemma mobilePrefixes_grows (number : string) (prefixes : list string) :
  grows (mobilePrefixes number prefixes).
Proof.
  induction prefixes as [|w ws IH]; simpl; [apply grows_ret|].
  apply grows_bind; [apply getRegexpByCountryCode_grows|].
  intros rm. destruct (MatchString rm number); [apply grows_ret|done].
Qed.

Lemma mobileLengths_grows (number : string) (prefixes : list string)
    (lengths : list Z) :
  grows (mobileLengths number prefixes lengths).
Proof.
  induction lengths as [|l ls IH]; simpl; [apply grows_ret|].
  destruct (l =? len number); [|done].
  apply grows_bind; [apply mobilePrefixes_grows|].
  intros [|]; [apply grows_ret|done].
Qed.

Lemma validateLandlineISO3166_grows (number : string) (iso3166 : ISO3166) :
  grows (validateLandlineISO3166 number iso3166).
Proof.
  unfold validateLandlineISO3166. destruct (_ =? 0); [apply grows_ret|].
  apply grows_bind; [apply getRegexpByCountryCode_grows|].
  intros r. apply grows_ret.
Qed.

Lemma validateMobileISO3166_grows (number : string) (iso3166 : ISO3166) :
  grows (validateMobileISO3166 number iso3166).
Proof.
  unfold validateMobileISO3166. destruct (_ =? 0); [apply grows_ret|].
  apply grows_bind; [apply getRegexpByCountryCode_grows|].
  intros r. apply mobileLengths_grows.
Qed.

Lemma validatePhoneISO3166_grows (number : string) (iso3166 : ISO3166) :
  grows (validatePhoneISO3166 number iso3166).
Proof.
  unfold validatePhoneISO3166.
  apply grows_bind; [apply validateLandlineISO3166_grows|].
  intros [|]; simpl; [|apply grows_ret].
  apply grows_bind; [apply validateMobileISO3166_grows|].
  intros [|]; apply grows_ret.
Qed.

Lemma mobileCodes_grows (number countryCode : string) (prefixes : list string) :
  grows (mobileCodes number countryCode prefixes).
Proof.
  induction prefixes as [|w ws IH]; simpl; [apply grows_ret|].
  apply grows_bind; [apply getRegexpByCountryCode_grows|].
  intros rm. destruct (MatchString rm number); [apply grows_ret|done].
Qed.

Lemma numberLengths_grows (number : string) (withLandLine : bool) (i : ISO3166)
    (r : Regexp) (lengths : list Z) :
  grows (numberLengths number withLandLine i r lengths).
Proof.
  induction lengths as [|l ls IH]; simpl; [apply grows_ret|].
  destruct (_ && _); [|done].
  apply grows_bind; [apply mobileCodes_grows|].
  intros [|]; [apply grows_ret|]. destruct withLandLine; [apply grows_ret|done].
Qed.

Lemma numberTable_grows (number : string) (withLandLine : bool)
    (table : list ISO3166) (iso3166 : ISO3166) :
  grows (numberTable number withLandLine iso3166 table).
Proof.
  revert iso3166. induction table as [|i table IH]; intros iso3166; simpl;
    [apply grows_ret|].
  apply grows_bind; [apply getRegexpByCountryCode_grows|]. intros r.
  apply grows_bind; [apply numberLengths_grows|].
  intros [| |]; [apply grows_ret|apply IH..].
Qed.

End Grows.

(** X3. [getRegexpByCountryCode] compiles a key once: a call that
    returns leaves under the key the matcher it returned and changes no
    other entry; when the key was present the map is unchanged and the
    stored matcher is the one returned; a second call with the key
    returns the same matcher and leaves the map as it is. *)
Theorem getRegexpByCountryCode_once (countryCode : string)
    (rMap rMap' : gmap string Regexp) (regex : Regexp) :
  getRegexpByCountryCode countryCode rMap = Ret (regex, rMap') ->
  rMap' !! countryCode = Some regex
  /\ (forall k, k <> countryCode -> rMap' !! k = rMap !! k)
  /\ (forall stored, rMap !! countryCode = Some stored ->
                     stored = regex /\ rMap' = rMap)
  /\ getRegexpByCountryCode countryCode rMap' = Ret (regex, rMap').
Proof.
  intros H.
  assert (Hk : rMap' !! countryCode = Some regex).
  { apply getRegexpByCountryCode_step in H as [[E ->]|(_ & _ & ->)]; [done|].
    apply lookup_insert_eq. }
  split; [done|]. split; [|split].
  - intros k Hne.
    apply getRegexpByCountryCode_step in H as [[_ ->]|(_ & _ & ->)]; [done|].
    by apply lookup_insert_ne.
  - intros stored Hs.
    apply getRegexpByCountryCode_step in H as [[E ->]|(E & _ & _)]; [|congruence].
    split; [congruence|done].
  - unfold getRegexpByCountryCode. by rewrite Hk.
Qed.

Lemma getRegexpByCountryCode_once_witness :
  exists rMap',
    getRegexpByCountryCode "33" ∅ = Ret (litRegexp "33", rMap')
    /\ rMap' !! "33" = Some (litRegexp "33")
    /\ (forall k, k <> "33" -> rMap' !! k = (∅ : gmap string Regexp) !! k)
    /\ (forall stored, (∅ : gmap string Regexp) !! "33" = Some stored ->
                       stored = litRegexp "33" /\ rMap' = ∅)
    /\ getRegexpByCountryCode "33" rMap' = Ret (litRegexp "33", rMap').
Proof.
  eexists. split; [reflexivity|].
  apply (getRegexpByCountryCode_once "33" ∅). reflexivity.
Defined.

(** X4. The classifier, the three parsers and lookup by number never
    remove or replace an entry of the pattern cache: every entry present
    before a call that returns is present, unchanged, after it. *)
Theorem cache_only_grows (table : list ISO3166) (unicodeToUpper : string -> string)
    (number country : string) (iso3166 : ISO3166) (withLandLine : bool) :
  grows (validateLandlineISO3166 number iso3166)
  /\ grows (validateMobileISO3166 number iso3166)
  /\ grows (validatePhoneISO3166 number iso3166)
  /\ grows (Parse table unicodeToUpper number country)
  /\ grows (ParseWithLandLine table unicodeToUpper number country)
  /\ grows (ParseWithFlags table unicodeToUpper number country)
  /\ grows (GetISO3166ByNumber table number withLandLine).
Proof.
  split; [apply validateLandlineISO3166_grows|].
  split; [apply validateMobileISO3166_grows|].
  split; [apply validatePhoneISO3166_grows|].
  split; [|split; [|split]].
  - unfold Parse. apply grows_bind; [apply grows_lift|]. intros [parsed r].
    apply grows_bind; [apply validateMobileISO3166_grows|].
    intros [|]; apply grows_ret.
  - unfold ParseWithLandLine. apply grows_bind; [apply grows_lift|].
    intros [parsed r].
    apply grows_bind; [apply validateLandlineISO3166_grows|].
    intros [|]; apply grows_ret.
  - unfold ParseWithFlags. apply grows_bind; [apply grows_lift|].
    intros [parsed r].
    apply grows_bind; [apply validatePhoneISO3166_grows|].
    intros [valid mobile]. apply grows_ret.
  - apply numberTable_grows.
Qed.

(** ** The index helpers *)

Section Index.

Lemma indexOfInt_from_found (k word : Z) (data : list Z) (r : Z) :
  0 <= k -> indexOfInt_from k word data = r -> r <> -1 ->
  k <= r < k + Z.of_nat (length data)
  /\ data !! Z.to_nat (r - k) = Some word
  /\ forall j, (j < Z.to_nat (r - k))%nat -> data !! j <> Some word.
Proof.
  revert k. induction data as [|v data IH]; intros k Hk; simpl; [congruence|].
  destruct (word =? v) eqn:E.
  - apply Z.eqb_eq in E. intros <- _. subst v.
    rewrite Z.sub_diag. simpl. split; [lia|]. split; [done|]. intros j Hj. lia.
  - apply Z.eqb_neq in E. intros Hr Hne.
    destruct (IH (k + 1) ltac:(lia) Hr Hne) as (Hb & Hl & Hf).
    split; [lia|].
    replace (Z.to_nat (r - k)) with (S (Z.to_nat (r - (k + 1)))) by lia.
    split; [done|]. intros [|j] Hj; simpl; [congruence|]. apply Hf. lia.
Qed.

Lemma indexOfString_from_none (k : Z) (word : string) (data : list string) :
  0 <= k -> (indexOfString_from k word data = -1 <-> ~ In word data).
Proof.
  revert k. induction data as [|v data IH]; intros k Hk; simpl; [tauto|].
  destruct (String.eqb word v) eqn:E.
  - apply String.eqb_eq in E as ->. split; [lia|]. intros H. contradict H. by left.
  - apply String.eqb_neq in E. rewrite IH by lia.
    split; [intros H [?|?]; [congruence|done]|intros H ?; apply H; by right].
Qed.

Lemma indexOfString_from_found (k : Z) (word : string) (data : list string) (r : Z) :
  0 <= k -> indexOfString_from k word data = r -> r <> -1 ->
  k <= r < k + Z.of_nat (length data)
  /\ data !! Z.to_nat (r - k) = Some word
  /\ forall j, (j < Z.to_nat (r - k))%nat -> data !! j <> Some word.
Proof.
  revert k. induction data as [|v data IH]; intros k Hk; simpl; [congruence|].
  destruct (String.eqb word v) eqn:E.
  - apply String.eqb_eq in E. intros <- _. subst v.
    rewrite Z.sub_diag. simpl. split; [lia|]. split; [done|]. intros j Hj. lia.
  - apply String.eqb_neq in E. intros Hr Hne.
    destruct (IH (k + 1) ltac:(lia) Hr Hne) as (Hb & Hl & Hf).
    split; [lia|].
    replace (Z.to_nat (r - k)) with (S (Z.to_nat (r - (k + 1)))) by lia.
    split; [done|]. intros [|j] Hj; simpl; [congruence|]. apply Hf. lia.
Qed.

End Index.

(** X5. [indexOfInt] returns -1 exactly when the word is not in the
    data; any other result is the index of its first occurrence: it is
    within the bounds of the data, the element there is the word, and no
    earlier element is. *)
Theorem indexOfInt_first (word : Z) (data : list Z) :
  (indexOfInt word data = -1 <-> ~ In word data)
  /\ (indexOfInt word data <> -1 ->
      0 <= indexOfInt word data < Z.of_nat (length data)
      /\ data !! Z.to_nat (indexOfInt word data) = Some word
      /\ forall j, (j < Z.to_nat (indexOfInt word data))%nat ->
                   data !! j <> Some word).
Proof.
  split; [by apply (indexOfInt_from_none 0)|].
  intros Hne.
  destruct (indexOfInt_from_found 0 word data _ ltac:(lia) eq_refl Hne)
    as (Hb & Hl & Hf).
  fold (indexOfInt word data) in *. rewrite Z.sub_0_r in *.
  split; [lia|]. by split.
Qed.

(** X6. [indexOfString] returns -1 exactly when the word is not in the
    data; any other result is the index of its first occurrence. *)
Theorem indexOfString_first (word : string) (data : list string) :
  (indexOfString word data = -1 <-> ~ In word data)
  /\ (indexOfString word data <> -1 ->
      0 <= indexOfString word data < Z.of_nat (length data)
      /\ data !! Z.to_nat (indexOfString word data) = Some word
      /\ forall j, (j < Z.to_nat (indexOfString word data))%nat ->
                   data !! j <> Some word).
Proof.
  split; [by apply (indexOfString_from_none 0)|].
  intros Hne.
  destruct (indexOfString_from_found 0 word data _ ltac:(lia) eq_refl Hne)
    as (Hb & Hl & Hf).
  fold (indexOfString word data) in *. rewrite Z.sub_0_r in *.
  split; [lia|]. by split.
Qed.

(** ** Spaces, punctuation and case *)

Section Formatting.

Lemma replace_scan_spaces (n : nat) (s : string) :
  (String.length s <= n)%nat ->
  replace_scan " " EmptyString n 0 s = removeSpaces s.
Proof.
  revert n. induction s as [|c s IH]; intros n Hn; [done|].
  simpl in Hn. destruct n as [|n]; [lia|].
  cbn [replace_scan removeSpaces HasPrefix String.length Nat.sub].
  destruct (Ascii.eqb c " ").
  - rewrite HasPrefix_nil, append_nil_l. apply IH. lia.
  - f_equal. apply IH. lia.
Qed.

Lemma Replace_spaces (s : string) :
  Replace s " " EmptyString (-1) = removeSpaces s.
Proof.
  unfold Replace. cbn [String.eqb orb Z.eqb Z.ltb Z.compare].
  apply replace_scan_spaces. lia.
Qed.

Lemma hasSpace_removeSpaces (s : string) : hasSpace (removeSpaces s) = false.
Proof.
  induction s as [|c s IH]; [done|]. simpl.
  destruct (Ascii.eqb c " ") eqn:E; [done|]. simpl. by rewrite E.
Qed.

Lemma digitsOnly_removeSpaces (s : string) :
  digitsOnly_ReplaceAllString (removeSpaces s) = digitsOnly_ReplaceAllString s.
Proof.
  induction s as [|c s IH]; [done|]. simpl.
  destruct (Ascii.eqb c " ") eqn:E.
  - apply Ascii.eqb_eq in E as ->. by simpl.
  - simpl. by rewrite IH.
Qed.

(** When the guard on [+] does not fire, only the digits of the number
    count. *)
Lemma parseInternal_digitsOnly (table : list ISO3166)
    (unicodeToUpper : string -> string) (number country : string) :
  HasPrefix (Replace number " " EmptyString (-1)) "+"
  && String.eqb (Replace country " " EmptyString (-1)) EmptyString = false ->
  parseInternal table unicodeToUpper number country
  = parseInternal table unicodeToUpper (digitsOnly_ReplaceAllString number) country.
Proof.
  intros Hguard. rewrite !parseInternal_steps. cbn zeta. rewrite Hguard.
  pose proof (digitsOnly_isDigits number) as Hd.
  rewrite (Replace_spaces_digits _ Hd), (isDigits_no_plus _ Hd). cbn [andb].
  by rewrite (digitsOnly_digits _ Hd), Replace_spaces, digitsOnly_removeSpaces.
Qed.

Lemma upperASCII_space (c : ascii) :
  Ascii.eqb (upperASCII c) " " = Ascii.eqb c " ".
Proof. by destruct c as [[] [] [] [] [] [] [] []]. Qed.

Lemma length_mapASCII (f : ascii -> ascii) (s : string) :
  String.length (mapASCII f s) = String.length s.
Proof. induction s as [|c s IH]; [done|]. simpl. by rewrite IH. Qed.

Lemma hasSpace_upper (s : string) :
  hasSpace (mapASCII upperASCII s) = hasSpace s.
Proof.
  induction s as [|c s IH]; [done|]. simpl. by rewrite upperASCII_space, IH.
Qed.

Lemma removeSpaces_upper (s : string) :
  mapASCII upperASCII (removeSpaces s) = removeSpaces (mapASCII upperASCII s).
Proof.
  induction s as [|c s IH]; [done|]. simpl. rewrite upperASCII_space.
  destruct (Ascii.eqb c " "); [done|]. simpl. by rewrite IH.
Qed.

Lemma isASCII_cons (c : ascii) (s : string) :
  isASCII (String c s) = (utf8.byte c <? utf8.RuneSelf)%N && isASCII s.
Proof. reflexivity. Qed.

Lemma isASCII_removeSpaces (s : string) :
  isASCII s = true -> isASCII (removeSpaces s) = true.
Proof.
  induction s as [|c s IH]; [done|]. rewrite isASCII_cons.
  intros [Hc Hs]%andb_true_iff. simpl.
  destruct (Ascii.eqb c " "); [by apply IH|].
  by rewrite isASCII_cons, Hc, IH.
Qed.

Lemma ToUpper_ASCII (unicodeToUpper : string -> string) (s : string) :
  isASCII s = true -> ToUpper unicodeToUpper s = mapASCII upperASCII s.
Proof. intros H. unfold ToUpper. by rewrite H. Qed.

Lemma firstRecord_sat (p : ISO3166 -> bool) (table : list ISO3166) :
  firstRecord p table = zeroISO3166 \/ p (firstRecord p table) = true.
Proof.
  induction table as [|i table IH]; simpl; [by left|].
  destruct (p i) eqn:E; [by right|done].
Qed.

End Formatting.

(** X7. The normaliser reads only the digits of the number: unless the
    number begins with [+] (once its spaces are removed) while the
    country identifier is empty, [parseInternal] and the three parsers
    give for a number what they give for the string of its digits, so
    spaces, dashes, brackets and a leading [+] do not matter. *)
Theorem parsers_read_digits (table : list ISO3166)
    (unicodeToUpper : string -> string) (number country : string) :
  HasPrefix (Replace number " " EmptyString (-1)) "+"
  && String.eqb (Replace country " " EmptyString (-1)) EmptyString = false ->
  parseInternal table unicodeToUpper number country
  = parseInternal table unicodeToUpper (digitsOnly_ReplaceAllString number) country
  /\ Parse table unicodeToUpper number country
     = Parse table unicodeToUpper (digitsOnly_ReplaceAllString number) country
  /\ ParseWithLandLine table unicodeToUpper number country
     = ParseWithLandLine table unicodeToUpper
         (digitsOnly_ReplaceAllString number) country
  /\ ParseWithFlags table unicodeToUpper number country
     = ParseWithFlags table unicodeToUpper
         (digitsOnly_ReplaceAllString number) country.
Proof.
  intros Hguard.
  pose proof (parseInternal_digitsOnly table unicodeToUpper number country Hguard)
    as E.
  split; [exact E|].
  unfold Parse, ParseWithLandLine, ParseWithFlags. by rewrite E.
Qed.

Lemma parsers_read_digits_witness :
  HasPrefix (Replace "+33 (0)6-12-34-56-78" " " EmptyString (-1)) "+"
  && String.eqb (Replace "FR" " " EmptyString (-1)) EmptyString = false
  /\ parseInternal Sample.table Sample.toUpper "+33 (0)6-12-34-56-78" "FR"
     = parseInternal Sample.table Sample.toUpper "330612345678" "FR"
  /\ Parse Sample.table Sample.toUpper "+33 (0)6-12-34-56-78" "FR"
     = Parse Sample.table Sample.toUpper "330612345678" "FR".
Proof.
  split; [reflexivity|].
  destruct (parsers_read_digits Sample.table Sample.toUpper
              "+33 (0)6-12-34-56-78" "FR") as (E1 & E2 & _); [reflexivity|].
  split; [exact E1|exact E2].
Defined.

(** X8. The output of the normaliser is a digit string: on a non-empty
    table whose country codes are digit strings, [parseInternal] returns
    digits only, and so do [Parse], [ParseWithLandLine] and
    [ParseWithFlags]. *)
Theorem parsers_return_digits (table : list ISO3166)
    (unicodeToUpper : string -> string) (number country : string) :
  table <> [] ->
  forallb wfISO3166 table = true ->
  exists parsed iso3166 mobileNumber anyNumber normalized valid mobile,
    parseInternal table unicodeToUpper number country = Ret (parsed, iso3166)
    /\ returns (Parse table unicodeToUpper number country) mobileNumber
    /\ returns (ParseWithLandLine table unicodeToUpper number country) anyNumber
    /\ returns (ParseWithFlags table unicodeToUpper number country)
               (normalized, valid, mobile)
    /\ isDigits parsed = true /\ isDigits mobileNumber = true
    /\ isDigits anyNumber = true /\ isDigits normalized = true.
Proof.
  intros Hne Hwf.
  destruct (parseInternal_cases table unicodeToUpper number country Hne)
    as (parsed & r & E & Hr).
  pose proof (wfISO3166_resolved table r Hwf Hr) as Hwfr.
  assert (Hd : isDigits parsed = true).
  { pose proof Hwfr as [Hcc _]%andb_true_iff.
    rewrite parseInternal_steps in E. cbn zeta in E.
    destruct (HasPrefix _ "+" && _); [by injection E as <- _|].
    destruct (getISO3166ByCountry table unicodeToUpper _) as [r'| |]; [|done..].
    cbn [mbind outcome_bind] in E. injection E as <- ->.
    apply attachCode_isDigits, stripRusPrefix_isDigits, stripLeadingZeros_isDigits,
      stripZeroAfterCode_isDigits; [done|done|apply digitsOnly_isDigits]. }
  exists parsed, r,
    (if mobileCheck parsed r then parsed else EmptyString),
    (if lengthMatch parsed r then parsed else EmptyString),
    (if negb (lengthMatch parsed r) then EmptyString else parsed),
    (lengthMatch parsed r), (lengthMatch parsed r && mobileCheck parsed r).
  split; [done|]. unfold Parse, ParseWithLandLine, ParseWithFlags.
  split.
  { eapply returns_bind; [by apply returns_lift|]. cbn beta iota.
    eapply returns_bind; [by apply validateMobileISO3166_returns|]. cbn beta.
    destruct (mobileCheck parsed r); apply returns_ret. }
  split.
  { eapply returns_bind; [by apply returns_lift|]. cbn beta iota.
    eapply returns_bind; [by apply validateLandlineISO3166_returns|]. cbn beta.
    destruct (lengthMatch parsed r); apply returns_ret. }
  split.
  { eapply returns_bind; [by apply returns_lift|]. cbn beta iota.
    eapply returns_bind; [by apply validatePhoneISO3166_returns|]. cbn beta iota.
    apply returns_ret. }
  split; [done|].
  destruct (mobileCheck parsed r), (lengthMatch parsed r); by repeat split.
Qed.

Lemma parsers_return_digits_witness :
  Sample.table <> []
  /\ forallb wfISO3166 Sample.table = true
  /\ exists parsed iso3166 mobileNumber anyNumber normalized valid mobile,
    parseInternal Sample.table Sample.toUpper "+7 (912) 345-67-89" "RU"
    = Ret (parsed, iso3166)
    /\ returns (Parse Sample.table Sample.toUpper "+7 (912) 345-67-89" "RU")
               mobileNumber
    /\ returns (ParseWithLandLine Sample.table Sample.toUpper
                  "+7 (912) 345-67-89" "RU") anyNumber
    /\ returns (ParseWithFlags Sample.table Sample.toUpper
                  "+7 (912) 345-67-89" "RU") (normalized, valid, mobile)
    /\ isDigits parsed = true /\ isDigits mobileNumber = true
    /\ isDigits anyNumber = true /\ isDigits normalized = true.
Proof.
  split; [discriminate|]. split; [reflexivity|].
  apply (parsers_return_digits Sample.table Sample.toUpper
           "+7 (912) 345-67-89" "RU"); [discriminate|reflexivity].
Defined.

(** X9. Country identifiers are compared without regard to ASCII case:
    two ASCII identifiers with the same upper-case form resolve to the
    same record, and [parseInternal] gives the same result for them. *)
Theorem country_case_insensitive (table : list ISO3166)
    (unicodeToUpper : string -> string) (number country1 country2 : string) :
  isASCII country1 = true -> isASCII country2 = true ->
  ToUpper unicodeToUpper country1 = ToUpper unicodeToUpper country2 ->
  getISO3166ByCountry table unicodeToUpper country1
  = getISO3166ByCountry table unicodeToUpper country2
  /\ parseInternal table unicodeToUpper number country1
     = parseInternal table unicodeToUpper number country2.
Proof.
  intros H1 H2 E.
  assert (Hres : forall c1 c2, isASCII c1 = true -> isASCII c2 = true ->
            ToUpper unicodeToUpper c1 = ToUpper unicodeToUpper c2 ->
            String.length c1 = String.length c2
            /\ getISO3166ByCountry table unicodeToUpper c1
               = getISO3166ByCountry table unicodeToUpper c2).
  { intros c1 c2 Hc1 Hc2 Ec.
    assert (Hl : String.length c1 = String.length c2).
    { rewrite (ToUpper_ASCII _ _ Hc1), (ToUpper_ASCII _ _ Hc2) in Ec.
      by rewrite <- (length_mapASCII upperASCII c1), Ec, length_mapASCII. }
    split; [done|]. unfold getISO3166ByCountry. by rewrite Ec, Hl. }
  split; [by apply Hres|].
  rewrite !parseInternal_steps. cbn zeta. rewrite !Replace_spaces.
  destruct (Hres (removeSpaces country1) (removeSpaces country2)) as [Hl Hr].
  { by apply isASCII_removeSpaces. }
  { by apply isASCII_removeSpaces. }
  { rewrite !ToUpper_ASCII by (by apply isASCII_removeSpaces).
    rewrite !removeSpaces_upper.
    rewrite (ToUpper_ASCII _ _ H1), (ToUpper_ASCII _ _ H2) in E. by rewrite E. }
  rewrite Hr.
  assert (Hz : String.eqb (removeSpaces country1) EmptyString
               = String.eqb (removeSpaces country2) EmptyString).
  { destruct (removeSpaces country1), (removeSpaces country2); done. }
  by rewrite Hz.
Qed.

Lemma country_case_insensitive_witness :
  isASCII "fr" = true /\ isASCII "Fr" = true
  /\ ToUpper Sample.toUpper "fr" = ToUpper Sample.toUpper "Fr"
  /\ getISO3166ByCountry Sample.table Sample.toUpper "fr"
     = getISO3166ByCountry Sample.table Sample.toUpper "Fr"
  /\ parseInternal Sample.table Sample.toUpper "0612345678" "fr"
     = parseInternal Sample.table Sample.toUpper "0612345678" "Fr".
Proof.
  do 3 (split; [reflexivity|]).
  apply (country_case_insensitive Sample.table Sample.toUpper "0612345678"
           "fr" "Fr"); reflexivity.
Defined.

(** X10. Through [parseInternal] a country is never found by a name that
    contains a space: the spaces are removed from the identifier before
    the comparison, not from the names of the table.  For an ASCII
    identifier that is resolved by name (its length without spaces is
    not 0, 2 or 3), the record returned has no space in its ASCII name;
    it is the zero value when only names with spaces would match. *)
Theorem parseInternal_name_without_space (table : list ISO3166)
    (unicodeToUpper : string -> string) (number country parsed : string)
    (iso3166 : ISO3166) :
  isASCII country = true ->
  String.length (Replace country " " EmptyString (-1)) <> 0%nat ->
  String.length (Replace country " " EmptyString (-1)) <> 2%nat ->
  String.length (Replace country " " EmptyString (-1)) <> 3%nat ->
  parseInternal table unicodeToUpper number country = Ret (parsed, iso3166) ->
  isASCII (CountryName iso3166) = true ->
  hasSpace (CountryName iso3166) = false.
Proof.
  intros Hc H0 H2 H3 E Hname.
  rewrite parseInternal_steps in E. cbn zeta in E.
  destruct (HasPrefix _ "+" && _); [by injection E as _ <-|].
  rewrite !Replace_spaces in *.
  unfold getISO3166ByCountry in E.
  destruct (String.length (removeSpaces country)) as [|[|[|[|n]]]] eqn:El;
    try congruence; cbn [mbind outcome_bind] in E; injection E as _ <-;
    (match goal with
     | |- context [firstRecord ?p table] =>
         pose proof (firstRecord_sat p table) as Hs;
         set (r := firstRecord p table) in *; clearbody r;
         destruct Hs as [->|Hp]; [done|];
         apply String.eqb_eq in Hp
     end);
    rewrite (ToUpper_ASCII _ _ Hname),
      (ToUpper_ASCII _ _ (isASCII_removeSpaces _ Hc)) in Hp;
    rewrite <- hasSpace_upper, Hp, hasSpace_upper;
    apply hasSpace_removeSpaces.
Qed.

Lemma parseInternal_name_without_space_witness :
  isASCII "russian federation" = true
  /\ parseInternal Sample.table Sample.toUpper "9123456789" "russian federation"
     = Ret ("9123456789", zeroISO3166)
  /\ hasSpace (CountryName zeroISO3166) = false.
Proof.
  split; [reflexivity|]. split; [reflexivity|].
  apply (parseInternal_name_without_space Sample.table Sample.toUpper
           "9123456789" "russian federation" "9123456789" zeroISO3166);
    [reflexivity|vm_compute; discriminate|vm_compute; discriminate
    |vm_compute; discriminate|reflexivity|reflexivity].
Defined.

(** X11. An unknown country gives empty results: when the identifier
    resolves to the zero value, [Parse] and [ParseWithLandLine] return
    the empty string and [ParseWithFlags] the empty string with both
    flags false, whatever the number. *)
Theorem unknown_country_is_rejected (table : list ISO3166)
    (unicodeToUpper : string -> string) (number country : string) :
  getISO3166ByCountry table unicodeToUpper (Replace country " " EmptyString (-1))
  = Ret zeroISO3166 ->
  returns (Parse table unicodeToUpper number country) EmptyString
  /\ returns (ParseWithLandLine table unicodeToUpper number country) EmptyString
  /\ returns (ParseWithFlags table unicodeToUpper number country)
             (EmptyString, false, false).
Proof.
  intros Hr.
  assert (E : exists parsed,
             parseInternal table unicodeToUpper number country
             = Ret (parsed, zeroISO3166)).
  { rewrite parseInternal_steps. cbn zeta.
    destruct (HasPrefix _ "+" && _); [by eexists|].
    rewrite Hr. by eexists. }
  destruct E as [parsed E].
  unfold Parse, ParseWithLandLine, ParseWithFlags. rewrite E.
  repeat split; intros rMap H; exists rMap; by split.
Qed.

Lemma unknown_country_is_rejected_witness :
  getISO3166ByCountry Sample.table Sample.toUpper
    (Replace "ZZ" " " EmptyString (-1)) = Ret zeroISO3166
  /\ returns (Parse Sample.table Sample.toUpper "0612345678" "ZZ") EmptyString
  /\ returns (ParseWithLandLine Sample.table Sample.toUpper "0612345678" "ZZ")
             EmptyString
  /\ returns (ParseWithFlags Sample.table Sample.toUpper "0612345678" "ZZ")
             (EmptyString, false, false).
Proof.
  split; [reflexivity|].
  apply (unknown_country_is_rejected Sample.table Sample.toUpper
           "0612345678" "ZZ"). reflexivity.
Defined.

(** ** How the parsers relate *)

Section Parsers.

Lemma int_add_small (a b : Z) : 0 <= a -> 0 <= b -> a + b < 2 ^ 63 -> int_add a b = a + b.
Proof.
  intros Ha Hb H. unfold int_add, wrap64. rewrite Z.mod_small by lia. lia.
Qed.

Lemma len_pos (s : string) : 0 <= len s.
Proof. unfold len. lia. Qed.

(** With the country code in front, a national part of an accepted
    length passes the landline check. *)
Lemma lengthMatch_append (r : ISO3166) (national : string) :
  In (len national) (PhoneNumberLengths r) ->
  len (CountryCode r +:+ national) < 2 ^ 63 ->
  lengthMatch (CountryCode r +:+ national) r = true.
Proof.
  intros Hl Hb. unfold lengthMatch. rewrite HasPrefix_append. simpl.
  apply existsb_exists. exists (len national). split; [done|].
  apply Z.eqb_eq. rewrite len_append in *.
  symmetry. apply int_add_small; [apply len_pos..|done].
Qed.

Lemma mobileCheck_append (r : ISO3166) (national w : string) :
  In (len national) (PhoneNumberLengths r) ->
  In w (MobileBeginWith r) -> HasPrefix national w = true ->
  mobileCheck (CountryCode r +:+ national) r = true.
Proof.
  intros Hl Hw Hp. unfold mobileCheck. cbn zeta. rewrite stripPrefix_app.
  apply andb_true_iff. split; apply existsb_exists.
  - exists (len national). split; [done|]. apply Z.eqb_refl.
  - by exists w.
Qed.

Lemma parseInternal_shape (table : list ISO3166)
    (unicodeToUpper : string -> string) (number country parsed : string)
    (r : ISO3166) :
  parseInternal table unicodeToUpper number country = Ret (parsed, r) ->
  (parsed = EmptyString /\ r = zeroISO3166)
  \/ (getISO3166ByCountry table unicodeToUpper
        (Replace country " " EmptyString (-1)) = Ret r
      /\ exists x, parsed = attachCode r x
                   /\ (isDigits (CountryCode r) = true -> isDigits x = true)).
Proof.
  rewrite parseInternal_steps. cbn zeta.
  destruct (HasPrefix _ "+" && _); [intros [= <- <-]; by left|].
  destruct (getISO3166ByCountry table unicodeToUpper _) as [r'| |] eqn:E;
    [|done..].
  cbn [mbind outcome_bind]. intros [= <- ->]. right. split; [done|].
  eexists. split; [reflexivity|]. intros Hcc.
  apply stripRusPrefix_isDigits, stripLeadingZeros_isDigits,
    stripZeroAfterCode_isDigits; [done|apply digitsOnly_isDigits].
Qed.

Lemma isDigits_append_r (s t : string) :
  isDigits (s +:+ t) = true -> isDigits t = true.
Proof. rewrite isDigits_app. by intros [_ ?]%andb_true_iff. Qed.

End Parsers.

(** X12. [ParseWithLandLine] returns the [normalized] component of
    [ParseWithFlags]: the two agree on every number and country. *)
Theorem ParseWithLandLine_is_normalized (table : list ISO3166)
    (unicodeToUpper : string -> string) (number country : string) :
  table <> [] ->
  forallb wfISO3166 table = true ->
  exists normalized valid mobile,
    returns (ParseWithFlags table unicodeToUpper number country)
            (normalized, valid, mobile)
    /\ returns (ParseWithLandLine table unicodeToUpper number country) normalized.
Proof.
  intros Hne Hwf.
  destruct (parseInternal_cases table unicodeToUpper number country Hne)
    as (parsed & r & E & Hr).
  pose proof (wfISO3166_resolved table r Hwf Hr) as Hwfr.
  exists (if negb (lengthMatch parsed r) then EmptyString else parsed),
         (lengthMatch parsed r),
         (lengthMatch parsed r && mobileCheck parsed r).
  unfold ParseWithLandLine, ParseWithFlags. split.
  - eapply returns_bind; [by apply returns_lift|]. cbn beta iota.
    eapply returns_bind; [by apply validatePhoneISO3166_returns|]. cbn beta iota.
    apply returns_ret.
  - eapply returns_bind; [by apply returns_lift|]. cbn beta iota.
    eapply returns_bind; [by apply validateLandlineISO3166_returns|]. cbn beta.
    destruct (lengthMatch parsed r); apply returns_ret.
Qed.

Lemma ParseWithLandLine_is_normalized_witness :
  Sample.table <> []
  /\ forallb wfISO3166 Sample.table = true
  /\ exists normalized valid mobile,
    returns (ParseWithFlags Sample.table Sample.toUpper "0312345678" "FR")
            (normalized, valid, mobile)
    /\ returns (ParseWithLandLine Sample.table Sample.toUpper "0312345678" "FR")
               normalized.
Proof.
  split; [discriminate|]. split; [reflexivity|].
  apply (ParseWithLandLine_is_normalized Sample.table Sample.toUpper
           "0312345678" "FR"); [discriminate|reflexivity].
Defined.

(** X13. [Parse] is the mobile case of [ParseWithFlags]: for a
    normalised number shorter than 2^63 bytes, [Parse] returns the
    [normalized] component when the [mobile] flag is set and the empty
    string otherwise; a number [Parse] accepts is valid as a landline
    number too, so [ParseWithLandLine] returns it as well. *)
Theorem Parse_is_mobile_of_flags (table : list ISO3166)
    (unicodeToUpper : string -> string) (number country parsed : string)
    (iso3166 : ISO3166) :
  forallb wfISO3166 table = true ->
  parseInternal table unicodeToUpper number country = Ret (parsed, iso3166) ->
  len parsed < 2 ^ 63 ->
  exists normalized valid mobile,
    returns (ParseWithFlags table unicodeToUpper number country)
            (normalized, valid, mobile)
    /\ returns (Parse table unicodeToUpper number country)
               (if mobile then normalized else EmptyString)
    /\ (mobile = true ->
        valid = true /\ normalized = parsed
        /\ returns (ParseWithLandLine table unicodeToUpper number country) parsed).
Proof.
  intros Hwf E Hlen.
  assert (Hwfr : wfISO3166 iso3166 = true /\
                 (mobileCheck parsed iso3166 = true ->
                  lengthMatch parsed iso3166 = true)).
  { destruct (parseInternal_shape _ _ _ _ _ _ E) as [[-> ->]|(Hr & x & -> & _)].
    - split; [done|]. unfold mobileCheck. simpl. discriminate.
    - assert (Hw : wfISO3166 iso3166 = true).
      { apply (wfISO3166_resolved table); [done|].
        unfold getISO3166ByCountry in Hr.
        destruct (String.length _) as [|[|[|[|?]]]]; try (injection Hr as <-;
          apply firstRecord_cases).
        destruct table as [|i rest]; [done|]. injection Hr as <-. right. by left. }
      split; [done|]. intros Hm.
      destruct (mobileCheck_attachCode _ _ Hm) as (national & w & Ed & Hl & _).
      rewrite Ed in *. by apply lengthMatch_append. }
  destruct Hwfr as [Hwfr Himp].
  exists (if negb (lengthMatch parsed iso3166) then EmptyString else parsed),
         (lengthMatch parsed iso3166),
         (lengthMatch parsed iso3166 && mobileCheck parsed iso3166).
  unfold Parse, ParseWithLandLine, ParseWithFlags. split; [|split].
  - eapply returns_bind; [by apply returns_lift|]. cbn beta iota.
    eapply returns_bind; [by apply validatePhoneISO3166_returns|]. cbn beta iota.
    apply returns_ret.
  - eapply returns_bind; [by apply returns_lift|]. cbn beta iota.
    eapply returns_bind; [by apply validateMobileISO3166_returns|]. cbn beta.
    destruct (mobileCheck parsed iso3166) eqn:Em.
    + rewrite (Himp eq_refl). apply returns_ret.
    + rewrite andb_false_r. apply returns_ret.
  - intros [Hl Hm]%andb_true_iff. rewrite Hl. split; [done|]. split; [done|].
    eapply returns_bind; [by apply returns_lift|]. cbn beta iota.
    eapply returns_bind; [by apply validateLandlineISO3166_returns|]. cbn beta.
    rewrite Hl. apply returns_ret.
Qed.

Lemma Parse_is_mobile_of_flags_witness :
  forallb wfISO3166 Sample.table = true
  /\ parseInternal Sample.table Sample.toUpper "06 12 34 56 78" "FR"
     = Ret ("33612345678", Sample.FR)
  /\ len "33612345678" < 2 ^ 63
  /\ exists normalized valid mobile,
    returns (ParseWithFlags Sample.table Sample.toUpper "06 12 34 56 78" "FR")
            (normalized, valid, mobile)
    /\ returns (Parse Sample.table Sample.toUpper "06 12 34 56 78" "FR")
               (if mobile then normalized else EmptyString)
    /\ (mobile = true ->
        valid = true /\ normalized = "33612345678"
        /\ returns (ParseWithLandLine Sample.table Sample.toUpper
                      "06 12 34 56 78" "FR") "33612345678").
Proof.
  split; [reflexivity|]. split; [reflexivity|]. split; [reflexivity|].
  apply (Parse_is_mobile_of_flags Sample.table Sample.toUpper "06 12 34 56 78"
           "FR" "33612345678" Sample.FR); reflexivity.
Defined.

(** X14. A non-empty result of [Parse] is the country code of the
    record the identifier resolves to, followed by a national part of
    digits whose length is an accepted length and which starts with one
    of the mobile prefixes of the record. *)
Theorem Parse_result_shape (table : list ISO3166)
    (unicodeToUpper : string -> string) (number country result : string)
    (rMap rMap' : gmap string Regexp) :
  forallb wfISO3166 table = true ->
  cache_ok rMap ->
  Parse table unicodeToUpper number country rMap = Ret (result, rMap') ->
  result <> EmptyString ->
  exists iso3166 national w,
    getISO3166ByCountry table unicodeToUpper
      (Replace country " " EmptyString (-1)) = Ret iso3166
    /\ In iso3166 table
    /\ result = CountryCode iso3166 +:+ national
    /\ isDigits national = true
    /\ In (len national) (PhoneNumberLengths iso3166)
    /\ In w (MobileBeginWith iso3166) /\ StartsWith national w.
Proof.
  intros Hwf Hok HP Hne. unfold Parse, mbind, M_bind, lift in HP.
  destruct (parseInternal table unicodeToUpper number country)
    as [[parsed r]| |] eqn:E; [|done..].
  destruct (parseInternal_shape _ _ _ _ _ _ E) as [[-> ->]|(Hr & x & -> & Hx)].
  { by injection HP as <- _. }
  assert (Hin : r = zeroISO3166 \/ In r table).
  { unfold getISO3166ByCountry in Hr.
    destruct (String.length _) as [|[|[|[|?]]]]; try (injection Hr as <-;
      apply firstRecord_cases).
    destruct table as [|i rest]; [done|]. injection Hr as <-. right. by left. }
  pose proof (wfISO3166_resolved table r Hwf Hin) as Hwfr.
  destruct (validateMobileISO3166_returns (attachCode r x) r Hwfr rMap Hok)
    as (rMap1 & E1 & _).
  rewrite E1 in HP.
  destruct (mobileCheck (attachCode r x) r) eqn:Em; injection HP as <- _; [|done].
  destruct (mobileCheck_attachCode _ _ Em) as (national & w & Ed & Hl & Hw & Hp).
  exists r, national, w. split; [done|].
  split.
  { destruct Hin as [->|]; [|done]. unfold mobileCheck in Em. by simpl in Em. }
  split; [done|]. split.
  { pose proof Hwfr as [Hcc _]%andb_true_iff.
    apply (isDigits_append_r (CountryCode r)). rewrite <- Ed.
    apply attachCode_isDigits; auto. }
  split; [done|]. split; [done|]. by apply HasPrefix_StartsWith.
Qed.

Lemma Parse_result_shape_witness :
  exists rMap',
    forallb wfISO3166 Sample.table = true
    /\ cache_ok ∅
    /\ Parse Sample.table Sample.toUpper "8 (912) 345-67-89" "RU" ∅
       = Ret ("79123456789", rMap')
    /\ "79123456789" <> EmptyString
    /\ exists iso3166 national w,
      getISO3166ByCountry Sample.table Sample.toUpper
        (Replace "RU" " " EmptyString (-1)) = Ret iso3166
      /\ In iso3166 Sample.table
      /\ "79123456789" = CountryCode iso3166 +:+ national
      /\ isDigits national = true
      /\ In (len national) (PhoneNumberLengths iso3166)
      /\ In w (MobileBeginWith iso3166) /\ StartsWith national w.
Proof.
  eexists. split; [reflexivity|]. split; [apply cache_ok_empty|].
  split; [vm_compute; reflexivity|]. split; [discriminate|].
  eapply (Parse_result_shape Sample.table Sample.toUpper "8 (912) 345-67-89"
            "RU" "79123456789" ∅);
    [reflexivity|apply cache_ok_empty|vm_compute; reflexivity|discriminate].
Defined.

(** ** Lookup by number and the classifier *)

Section LookupClassifier.

Lemma In_last {A : Type} (l : list A) (d : A) :
  l <> [] -> In (List.last l d) l.
Proof.
  induction l as [|a l IH]; [done|]. intros _.
  destruct l as [|b l]; [by left|].
  right. apply IH. discriminate.
Qed.

(** Within the sizes of a Go program a mobile match for lookup by number
    is a number that passes both checks of the classifier. *)
Lemma mobileMatch_mobileCheck (number : string) (i : ISO3166) :
  len number < 2 ^ 63 -> intLengths i = true ->
  mobileMatch number i = true ->
  lengthMatch number i = true /\ mobileCheck number i = true.
Proof.
  intros Hn Hint Hm. unfold mobileMatch in Hm.
  apply andb_true_iff in Hm as [Hl Hw]. split; [done|].
  unfold lengthMatch in Hl. apply andb_true_iff in Hl as [Hp Hl].
  apply existsb_exists in Hl as (l & Hl & El). apply Z.eqb_eq in El.
  apply existsb_exists in Hw as (w & Hw & Ew).
  apply HasPrefix_split in Hp.
  set (national := drop (String.length (CountryCode i)) number) in *.
  unfold intLengths in Hint. rewrite forallb_forall in Hint.
  pose proof (Hint _ Hl) as [H1 H2]%andb_true_iff.
  apply Z.leb_le in H1. apply Z.ltb_lt in H2.
  assert (Hcc : len (CountryCode i) < 2 ^ 63).
  { rewrite Hp, len_append in Hn. pose proof (len_pos national). lia. }
  apply (int_add_len number (CountryCode i) l Hn Hcc) in El; [|lia].
  unfold mobileCheck. cbn zeta. rewrite Hp, stripPrefix_app.
  rewrite Hp, len_append in El. rewrite Hp, HasPrefix_app_app in Ew.
  apply andb_true_iff. split; apply existsb_exists.
  - exists l. split; [done|]. apply Z.eqb_eq. lia.
  - by exists w.
Qed.

End LookupClassifier.

(** X15. The record [GetISO3166ByNumber] returns is either a record of
    the table for which the number passes the landline check of the
    classifier, or the zero value; the zero value is returned only when
    no record is a mobile match and, with [withLandLine], no record
    matches by length either. *)
Theorem GetISO3166ByNumber_result (table : list ISO3166) (number : string)
    (withLandLine : bool) :
  forallb wfISO3166 table = true ->
  exists i,
    returns (GetISO3166ByNumber table number withLandLine) i
    /\ ((In i table
         /\ returns (validateLandlineISO3166 number i) true)
        \/ (i = zeroISO3166
            /\ forall j, In j table ->
                 mobileMatch number j = false
                 /\ (withLandLine = true -> lengthMatch number j = false))).
Proof.
  intros Hwf. exists (lookupByNumber table number withLandLine).
  split; [by apply numberTable_returns|].
  assert (Hvalid : forall i, In i table -> lengthMatch number i = true ->
            returns (validateLandlineISO3166 number i) true).
  { intros i Hi Hl. rewrite <- Hl. apply validateLandlineISO3166_returns.
    rewrite forallb_forall in Hwf. by apply Hwf. }
  unfold lookupByNumber.
  destruct (find (mobileMatch number) table) as [i|] eqn:Ef.
  - apply find_some in Ef as [Hi Hm]. left. split; [done|].
    apply Hvalid; [done|]. unfold mobileMatch in Hm.
    by apply andb_true_iff in Hm as [? _].
  - pose proof (find_none _ _ Ef) as Hnone.
    destruct withLandLine.
    + destruct (List.filter (lengthMatch number) table) as [|a l] eqn:El.
      * right. split; [done|]. intros j Hj. split; [by apply Hnone|].
        intros _. destruct (lengthMatch number j) eqn:Ej; [|done].
        assert (In j (List.filter (lengthMatch number) table))
          by (apply filter_In; by split).
        rewrite El in *. done.
      * left. assert (Hin : In (List.last (a :: l) zeroISO3166)
                              (List.filter (lengthMatch number) table)).
        { rewrite El. by apply In_last. }
        apply filter_In in Hin as [Hi Hl]. split; [done|]. by apply Hvalid.
    + right. split; [done|]. intros j Hj. split; [by apply Hnone|done].
Qed.

Lemma GetISO3166ByNumber_result_witness :
  forallb wfISO3166 Sample.table = true
  /\ exists i,
    returns (GetISO3166ByNumber Sample.table "33312345678" true) i
    /\ ((In i Sample.table
         /\ returns (validateLandlineISO3166 "33312345678" i) true)
        \/ (i = zeroISO3166
            /\ forall j, In j Sample.table ->
                 mobileMatch "33312345678" j = false
                 /\ (true = true -> lengthMatch "33312345678" j = false))).
Proof.
  split; [reflexivity|].
  apply (GetISO3166ByNumber_result Sample.table "33312345678" true). reflexivity.
Defined.

(** X16. Lookup by number without landlines agrees with the classifier:
    for a number shorter than 2^63 bytes and accepted lengths that are
    [int] values, the record [GetISO3166ByNumber(number, false)] returns
    is a record of the table for which [validatePhoneISO3166] gives
    [(true, true)], or the zero value when no record is a mobile
    match. *)
Theorem GetISO3166ByNumber_mobile_is_valid (table : list ISO3166)
    (number : string) :
  forallb wfISO3166 table = true ->
  forallb intLengths table = true ->
  len number < 2 ^ 63 ->
  exists i,
    returns (GetISO3166ByNumber table number false) i
    /\ ((In i table /\ returns (validatePhoneISO3166 number i) (true, true))
        \/ (i = zeroISO3166
            /\ forall j, In j table -> mobileMatch number j = false)).
Proof.
  intros Hwf Hint Hn. exists (lookupByNumber table number false).
  split; [by apply numberTable_returns|].
  unfold lookupByNumber.
  destruct (find (mobileMatch number) table) as [i|] eqn:Ef.
  - apply find_some in Ef as [Hi Hm]. left. split; [done|].
    rewrite forallb_forall in Hwf, Hint.
    destruct (mobileMatch_mobileCheck number i Hn (Hint _ Hi) Hm) as [Hl Hc].
    pose proof (validatePhoneISO3166_returns number i (Hwf _ Hi)) as H.
    by rewrite Hl, Hc in H.
  - right. split; [done|]. intros j Hj. by apply (find_none _ _ Ef).
Qed.

Lemma GetISO3166ByNumber_mobile_is_valid_witness :
  forallb wfISO3166 Sample.table = true
  /\ forallb intLengths Sample.table = true
  /\ len "79123456789" < 2 ^ 63
  /\ exists i,
    returns (GetISO3166ByNumber Sample.table "79123456789" false) i
    /\ ((In i Sample.table
         /\ returns (validatePhoneISO3166 "79123456789" i) (true, true))
        \/ (i = zeroISO3166
            /\ forall j, In j Sample.table -> mobileMatch "79123456789" j = false)).
Proof.
  do 3 (split; [reflexivity|]).
  apply (GetISO3166ByNumber_mobile_is_valid Sample.table "79123456789");
    reflexivity.
Defined.

(** X17. The two lookups agree: when [GetISO3166ByMobileNumber] lists a
    record for a national number, the number with the country code of
    the record in front (shorter than 2^63 bytes) is classified
    [(true, true)] for that record, and [GetISO3166ByNumber] finds for
    it a record of the table that is a mobile match. *)
Theorem GetISO3166ByMobileNumber_is_mobile (table : list ISO3166)
    (number : string) (i : ISO3166) (withLandLine : bool) :
  forallb wfISO3166 table = true ->
  In i (GetISO3166ByMobileNumber table number) ->
  len (CountryCode i +:+ number) < 2 ^ 63 ->
  returns (validatePhoneISO3166 (CountryCode i +:+ number) i) (true, true)
  /\ exists j,
      returns (GetISO3166ByNumber table (CountryCode i +:+ number) withLandLine) j
      /\ In j table
      /\ mobileMatch (CountryCode i +:+ number) j = true.
Proof.
  intros Hwf Hi Hlen.
  unfold GetISO3166ByMobileNumber in Hi. rewrite mobileNumberTable_app in Hi.
  simpl in Hi. apply in_flat_map in Hi as (k & Hk & Hi).
  apply In_mobileNumberHits in Hi as (-> & Hl & w & Hw & Hne & Hp).
  pose proof (lengthMatch_append k number Hl Hlen) as Hlm.
  pose proof (mobileCheck_append k number w Hl Hw Hp) as Hmc.
  split.
  - rewrite forallb_forall in Hwf.
    pose proof (validatePhoneISO3166_returns (CountryCode k +:+ number) k
                  (Hwf _ Hk)) as H.
    by rewrite Hlm, Hmc in H.
  - assert (Hm : mobileMatch (CountryCode k +:+ number) k = true).
    { unfold mobileMatch. rewrite Hlm. simpl. apply existsb_exists.
      exists w. split; [done|]. by rewrite HasPrefix_app_app. }
    exists (lookupByNumber table (CountryCode k +:+ number) withLandLine).
    split; [by apply numberTable_returns|].
    unfold lookupByNumber.
    destruct (find (mobileMatch (CountryCode k +:+ number)) table) as [j|] eqn:Ef.
    + by apply find_some in Ef.
    + pose proof (find_none _ _ Ef k Hk). congruence.
Qed.

Lemma GetISO3166ByMobileNumber_is_mobile_witness :
  forallb wfISO3166 Sample.table = true
  /\ In Sample.KZ (GetISO3166ByMobileNumber Sample.table "7012345678")
  /\ len (CountryCode Sample.KZ +:+ "7012345678") < 2 ^ 63
  /\ returns (validatePhoneISO3166 (CountryCode Sample.KZ +:+ "7012345678")
                Sample.KZ) (true, true)
  /\ exists j,
      returns (GetISO3166ByNumber Sample.table
                 (CountryCode Sample.KZ +:+ "7012345678") false) j
      /\ In j Sample.table
      /\ mobileMatch (CountryCode Sample.KZ +:+ "7012345678") j = true.
Proof.
  split; [reflexivity|]. split; [vm_compute; by left|]. split; [reflexivity|].
  apply (GetISO3166ByMobileNumber_is_mobile Sample.table "7012345678" Sample.KZ
           false); [reflexivity|vm_compute; by left|reflexivity].
Defined.

(** ** What the normaliser does to a number *)

Section Normalise.

Lemma stripZeroAfterCode_id (r : ISO3166) (n : string) :
  HasPrefix n (CountryCode r +:+ "0") = false -> stripZeroAfterCode r n = n.
Proof.
  intros Hn0. unfold stripZeroAfterCode.
  destruct (HasPrefix n (CountryCode r)) eqn:Ep; [|done].
  apply HasPrefix_split in Ep.
  set (t := drop (String.length (CountryCode r)) n) in *.
  rewrite Ep in Hn0 |- *. rewrite Replace_prefix.
  rewrite HasPrefix_app_app in Hn0. by rewrite Hn0.
Qed.

Lemma stripZeroAfterCode_zero (r : ISO3166) (t : string) :
  HasPrefix t "0" = false ->
  stripZeroAfterCode r (CountryCode r +:+ "0" +:+ t) = CountryCode r +:+ t.
Proof.
  intros Ht. unfold stripZeroAfterCode.
  rewrite HasPrefix_append, Replace_prefix, HasPrefix_append, Replace_prefix.
  done.
Qed.

Lemma stripLeadingZeros_id (r : ISO3166) (n : string) :
  HasPrefix n "0" = false -> stripLeadingZeros r n = n.
Proof.
  intros H. unfold stripLeadingZeros. destruct (_ =? -1); [|done].
  by apply trimRun_id.
Qed.

Lemma attachCode_accepted (r : ISO3166) (n : string) :
  In (len n) (PhoneNumberLengths r) -> attachCode r n = CountryCode r +:+ n.
Proof. intros H. by destruct (attachCode_cases r n) as [[_ ?]|[? _]]. Qed.

(** [parseInternal] on a digit string, once the country is resolved. *)
Lemma parseInternal_digits (table : list ISO3166)
    (unicodeToUpper : string -> string) (n c : string) (r : ISO3166) :
  isDigits n = true ->
  getISO3166ByCountry table unicodeToUpper (Replace c " " EmptyString (-1)) = Ret r ->
  parseInternal table unicodeToUpper n c
  = Ret (attachCode r
           (stripRusPrefix r (stripLeadingZeros r (stripZeroAfterCode r n))), r).
Proof.
  intros Hn Hr. rewrite parseInternal_steps. cbn zeta.
  rewrite (Replace_spaces_digits _ Hn), (isDigits_no_plus _ Hn). cbn [andb].
  rewrite Hr. cbn [mbind outcome_bind]. by rewrite (digitsOnly_digits _ Hn).
Qed.

Lemma HasPrefix_other (s p : string) (c : ascii) :
  p <> EmptyString -> HasPrefix s (String c EmptyString) = true ->
  HasPrefix p (String c EmptyString) = false -> HasPrefix s p = false.
Proof.
  destruct p as [|a p]; [done|]. intros _.
  destruct s as [|b s]; [done|]. rewrite !HasPrefix_one. simpl.
  intros ->%Ascii.eqb_eq. rewrite Ascii.eqb_sym. by intros ->.
Qed.

Lemma exception_not_RUS (r : ISO3166) :
  keepsLeadingZero r = true -> String.eqb (Alpha3 r) "RUS" = false.
Proof.
  unfold keepsLeadingZero, indexOfString. simpl.
  destruct (String.eqb (Alpha3 r) "GAB") eqn:E1;
    [apply String.eqb_eq in E1 as ->; done|].
  destruct (String.eqb (Alpha3 r) "CIV") eqn:E2;
    [apply String.eqb_eq in E2 as ->; done|].
  destruct (String.eqb (Alpha3 r) "COG") eqn:E3;
    [apply String.eqb_eq in E3 as ->; done|].
  done.
Qed.

End Normalise.

(** X18. The national and the international form of a mobile number
    normalise to the same string.  For a stable record and a national
    digit string [n] of an accepted length that starts with a mobile
    prefix, does not begin with the country code followed by 0 and is
    not subject to the Russian rule, [parseInternal] maps [n], the
    country code followed by [n] and, for a non-empty identifier, [+]
    followed by both, to the country code followed by [n]; [Parse]
    returns that string. *)
Theorem Parse_national_and_international (table : list ISO3166)
    (unicodeToUpper : string -> string) (n c w : string) (r : ISO3166) :
  getISO3166ByCountry table unicodeToUpper (Replace c " " EmptyString (-1)) = Ret r ->
  wfISO3166 r = true ->
  stableRecord r = true ->
  isDigits n = true ->
  In (len n) (PhoneNumberLengths r) ->
  In w (MobileBeginWith r) -> HasPrefix n w = true ->
  HasPrefix n (CountryCode r +:+ "0") = false ->
  rusRuleApplies r n = false ->
  parseInternal table unicodeToUpper n c = Ret (CountryCode r +:+ n, r)
  /\ parseInternal table unicodeToUpper (CountryCode r +:+ n) c
     = Ret (CountryCode r +:+ n, r)
  /\ (Replace c " " EmptyString (-1) <> EmptyString ->
      parseInternal table unicodeToUpper ("+" +:+ CountryCode r +:+ n) c
      = Ret (CountryCode r +:+ n, r))
  /\ returns (Parse table unicodeToUpper n c) (CountryCode r +:+ n)
  /\ returns (Parse table unicodeToUpper (CountryCode r +:+ n) c)
             (CountryCode r +:+ n).
Proof.
  intros Hr Hwf Hst Hn Hl Hw Hp Hn0 Hrus.
  pose proof Hwf as [Hcc _]%andb_true_iff.
  assert (Hw0 : HasPrefix n "0" = false).
  { unfold stableRecord in Hst.
    apply andb_true_iff in Hst as [[_ Hws]%andb_true_iff _].
    rewrite forallb_forall in Hws. apply Hws in Hw as Hw'.
    apply andb_true_iff in Hw' as [Hwe Hwz].
    apply negb_true_iff in Hwe, Hwz. apply String.eqb_neq in Hwe.
    by apply (HasPrefix_first_false n w). }
  assert (E1 : parseInternal table unicodeToUpper n c
               = Ret (CountryCode r +:+ n, r)).
  { rewrite (parseInternal_digits _ _ _ _ _ Hn Hr).
    rewrite (stripZeroAfterCode_id _ _ Hn0), (stripLeadingZeros_id _ _ Hw0).
    unfold stripRusPrefix. fold (rusRuleApplies r n). rewrite Hrus.
    by rewrite (attachCode_accepted _ _ Hl). }
  assert (Hd : isDigits (CountryCode r +:+ n) = true)
    by (by rewrite isDigits_app, Hcc, Hn).
  assert (E2 : parseInternal table unicodeToUpper (CountryCode r +:+ n) c
               = Ret (CountryCode r +:+ n, r)).
  { rewrite (parseInternal_digits _ _ _ _ _ Hd Hr).
    by rewrite (stableRecord_fixed r n w Hst Hl Hw Hp). }
  assert (Hm : mobileCheck (CountryCode r +:+ n) r = true)
    by (by apply (mobileCheck_append r n w)).
  assert (HP : forall x,
             parseInternal table unicodeToUpper x c = Ret (CountryCode r +:+ n, r) ->
             returns (Parse table unicodeToUpper x c) (CountryCode r +:+ n)).
  { intros x Ex. unfold Parse.
    eapply returns_bind; [by apply returns_lift|]. cbn beta iota.
    eapply returns_bind; [by apply validateMobileISO3166_returns|]. cbn beta.
    rewrite Hm. apply returns_ret. }
  split; [done|]. split; [done|]. split; [|split; by apply HP].
  intros Hc. rewrite parseInternal_digitsOnly.
  - change (digitsOnly_ReplaceAllString ("+" +:+ CountryCode r +:+ n))
      with (digitsOnly_ReplaceAllString (CountryCode r +:+ n)).
    by rewrite (digitsOnly_digits _ Hd).
  - apply String.eqb_neq in Hc. rewrite Hc. apply andb_false_r.
Qed.

Lemma Parse_national_and_international_witness :
  getISO3166ByCountry Sample.table Sample.toUpper
    (Replace "FR" " " EmptyString (-1)) = Ret Sample.FR
  /\ parseInternal Sample.table Sample.toUpper "612345678" "FR"
     = Ret (CountryCode Sample.FR +:+ "612345678", Sample.FR)
  /\ parseInternal Sample.table Sample.toUpper
       (CountryCode Sample.FR +:+ "612345678") "FR"
     = Ret (CountryCode Sample.FR +:+ "612345678", Sample.FR)
  /\ (Replace "FR" " " EmptyString (-1) <> EmptyString ->
      parseInternal Sample.table Sample.toUpper
        ("+" +:+ CountryCode Sample.FR +:+ "612345678") "FR"
      = Ret (CountryCode Sample.FR +:+ "612345678", Sample.FR))
  /\ returns (Parse Sample.table Sample.toUpper "612345678" "FR")
             (CountryCode Sample.FR +:+ "612345678")
  /\ returns (Parse Sample.table Sample.toUpper
                (CountryCode Sample.FR +:+ "612345678") "FR")
             (CountryCode Sample.FR +:+ "612345678").
Proof.
  split; [reflexivity|].
  apply (Parse_national_and_international Sample.table Sample.toUpper
           "612345678" "FR" "6" Sample.FR);
    [reflexivity|reflexivity|reflexivity|reflexivity|by left|by left
    |reflexivity|reflexivity|reflexivity].
Defined.

(** X19. The zero after the country code is dropped: for every record
    and every digit string [t] that does not begin with 0,
    [parseInternal] gives for the country code followed by 0 and [t]
    what it gives for the country code followed by [t]. *)
Theorem parseInternal_zero_after_code (table : list ISO3166)
    (unicodeToUpper : string -> string) (t c : string) (r : ISO3166) :
  getISO3166ByCountry table unicodeToUpper (Replace c " " EmptyString (-1)) = Ret r ->
  isDigits (CountryCode r) = true ->
  isDigits t = true ->
  HasPrefix t "0" = false ->
  parseInternal table unicodeToUpper (CountryCode r +:+ "0" +:+ t) c
  = parseInternal table unicodeToUpper (CountryCode r +:+ t) c.
Proof.
  intros Hr Hcc Ht H0.
  assert (H1 : isDigits (CountryCode r +:+ "0" +:+ t) = true)
    by (by rewrite !isDigits_app, Hcc, Ht).
  assert (H2 : isDigits (CountryCode r +:+ t) = true)
    by (by rewrite !isDigits_app, Hcc, Ht).
  rewrite (parseInternal_digits _ _ _ _ _ H1 Hr),
    (parseInternal_digits _ _ _ _ _ H2 Hr).
  by rewrite (stripZeroAfterCode_zero _ _ H0), (stripZeroAfterCode_app _ _ H0).
Qed.

Lemma parseInternal_zero_after_code_witness :
  getISO3166ByCountry Sample.table Sample.toUpper
    (Replace "FR" " " EmptyString (-1)) = Ret Sample.FR
  /\ parseInternal Sample.table Sample.toUpper
       (CountryCode Sample.FR +:+ "0" +:+ "612345678") "FR"
     = parseInternal Sample.table Sample.toUpper
         (CountryCode Sample.FR +:+ "612345678") "FR".
Proof.
  split; [reflexivity|].
  apply (parseInternal_zero_after_code Sample.table Sample.toUpper
           "612345678" "FR" Sample.FR); reflexivity.
Defined.

(** X20. The Russian rule: for a record of alpha3 RUS whose country
    code is not empty and begins neither with 8 nor with 9, a ten-digit
    number that begins with 9 is normalised in the same way with and
    without the domestic prefix 8 in front. *)
Theorem parseInternal_rus_prefix (table : list ISO3166)
    (unicodeToUpper : string -> string) (m c : string) (r : ISO3166) :
  getISO3166ByCountry table unicodeToUpper (Replace c " " EmptyString (-1)) = Ret r ->
  Alpha3 r = "RUS" ->
  CountryCode r <> EmptyString ->
  HasPrefix (CountryCode r) "8" = false ->
  HasPrefix (CountryCode r) "9" = false ->
  isDigits m = true -> len m = 10 -> HasPrefix m "9" = true ->
  parseInternal table unicodeToUpper ("8" +:+ m) c
  = parseInternal table unicodeToUpper m c
  /\ parseInternal table unicodeToUpper m c = Ret (attachCode r m, r).
Proof.
  intros Hr Ha Hcc H8 H9 Hm Hlen Hm9.
  assert (H8m : isDigits ("8" +:+ m) = true) by (by rewrite isDigits_app, Hm).
  rewrite (parseInternal_digits _ _ _ _ _ H8m Hr),
    (parseInternal_digits _ _ _ _ _ Hm Hr).
  assert (Em : HasPrefix m (CountryCode r) = false)
    by (by apply (HasPrefix_other m (CountryCode r) "9")).
  assert (E8 : HasPrefix ("8" +:+ m) (CountryCode r) = false)
    by (apply (HasPrefix_other ("8" +:+ m) (CountryCode r) "8");
        [done|apply (HasPrefix_append "8" m)|done]).
  assert (Hm0 : HasPrefix m "0" = false).
  { destruct m as [|a m]; [done|]. rewrite HasPrefix_one in *.
    apply Ascii.eqb_eq in Hm9 as ->. done. }
  assert (S5 : stripZeroAfterCode r m = m)
    by (unfold stripZeroAfterCode; by rewrite Em).
  assert (S5' : stripZeroAfterCode r ("8" +:+ m) = "8" +:+ m)
    by (unfold stripZeroAfterCode; by rewrite E8).
  rewrite S5, S5', (stripLeadingZeros_id _ _ Hm0),
    (stripLeadingZeros_id r ("8" +:+ m)) by done.
  assert (S7 : stripRusPrefix r m = m).
  { unfold stripRusPrefix. rewrite Hlen. by rewrite andb_false_r. }
  assert (S7' : stripRusPrefix r ("8" +:+ m) = m).
  { unfold stripRusPrefix, rusLocaleMobPrefix_MatchString,
      rusLocalePrefix_ReplaceAllString.
    rewrite Ha, len_append, Hlen.
    destruct m as [|a m]; [done|]. rewrite HasPrefix_one in Hm9.
    apply Ascii.eqb_eq in Hm9 as ->.
    change ("8" +:+ String "9" m) with (String "8" (String "9" m)).
    cbn [HasPrefix Ascii.eqb Bool.eqb]. rewrite HasPrefix_nil. reflexivity. }
  by rewrite S7, S7'.
Qed.

Lemma parseInternal_rus_prefix_witness :
  getISO3166ByCountry Sample.table Sample.toUpper
    (Replace "RU" " " EmptyString (-1)) = Ret Sample.RU
  /\ parseInternal Sample.table Sample.toUpper ("8" +:+ "9123456789") "RU"
     = parseInternal Sample.table Sample.toUpper "9123456789" "RU"
  /\ parseInternal Sample.table Sample.toUpper "9123456789" "RU"
     = Ret (attachCode Sample.RU "9123456789", Sample.RU).
Proof.
  split; [reflexivity|].
  apply (parseInternal_rus_prefix Sample.table Sample.toUpper "9123456789" "RU"
           Sample.RU); [reflexivity| reflexivity|discriminate|reflexivity..].
Defined.

(** X21. The leading-zero exception: for a record whose alpha3 is GAB,
    CIV or COG and a digit string that does not begin with the country
    code, the normaliser removes nothing: the leading zeros stay, and
    the country code is put in front exactly when the length of the
    number, zeros included, is an accepted length. *)
Theorem parseInternal_keeps_leading_zero (table : list ISO3166)
    (unicodeToUpper : string -> string) (n c : string) (r : ISO3166) :
  getISO3166ByCountry table unicodeToUpper (Replace c " " EmptyString (-1)) = Ret r ->
  keepsLeadingZero r = true ->
  isDigits n = true ->
  HasPrefix n (CountryCode r) = false ->
  exists parsed,
    parseInternal table unicodeToUpper n c = Ret (parsed, r)
    /\ (In (len n) (PhoneNumberLengths r) -> parsed = CountryCode r +:+ n)
    /\ (~ In (len n) (PhoneNumberLengths r) -> parsed = n).
Proof.
  intros Hr Hk Hn Hp. exists (attachCode r n).
  split.
  - rewrite (parseInternal_digits _ _ _ _ _ Hn Hr).
    unfold stripZeroAfterCode. rewrite Hp.
    unfold stripLeadingZeros. unfold keepsLeadingZero in Hk.
    apply negb_true_iff in Hk. rewrite Hk.
    unfold stripRusPrefix.
    by rewrite (exception_not_RUS r) by (unfold keepsLeadingZero; by rewrite Hk).
  - destruct (attachCode_cases r n) as [[? ?]|[? ?]]; split; intros; done.
Qed.

Lemma parseInternal_keeps_leading_zero_witness :
  getISO3166ByCountry SampleZero.table Sample.toUpper
    (Replace "CI" " " EmptyString (-1)) = Ret SampleZero.CI
  /\ keepsLeadingZero SampleZero.CI = true
  /\ isDigits "0712345678" = true
  /\ HasPrefix "0712345678" (CountryCode SampleZero.CI) = false
  /\ exists parsed,
    parseInternal SampleZero.table Sample.toUpper "0712345678" "CI"
    = Ret (parsed, SampleZero.CI)
    /\ (In (len "0712345678") (PhoneNumberLengths SampleZero.CI) ->
        parsed = CountryCode SampleZero.CI +:+ "0712345678")
    /\ (~ In (len "0712345678") (PhoneNumberLengths SampleZero.CI) ->
        parsed = "0712345678").
Proof.
  do 4 (split; [reflexivity|]).
  apply (parseInternal_keeps_leading_zero SampleZero.table Sample.toUpper
           "0712345678" "CI" SampleZero.CI); reflexivity.
Defined.
